(** * wiki-proxy: the TTL cache, the upstream adapters and the endpoints

    A shallow embedding of [src/server.js].  That file holds three
    deployments of the proxy one after the other:

    - lines 1-223, the streaming deployment (summary + headline feeds
      + generative text), embedded in [Module Streaming];
    - lines 224-312, the stand-alone passthrough built on the
      [node-cache] package, embedded in [Module NodeCacheProxy];
    - lines 313-529, the JSON deployment (summary + filtered feeds +
      search), embedded in [Module Aggregate].

    The three share the cache helpers [setCache]/[getCache] and the
    [/api/wikipedia] handler over a plain [Map]; those come first.
    [src/unnamed/part_000] holds two more deployments made of the same
    pieces: the streaming one without its generative part, and the
    passthrough of lines 224-312 without its cache.

    Conventions.  JavaScript strings are byte strings here (their UTF-8
    text).  Case folding and the printing of numbers are taken from the
    language runtime, over which the development is stated ([Runtime]);
    numbers are the integers.  [Date.now()] is an integer number of
    milliseconds.  A handler runs from its first to its last statement
    without another handler running in between; the time an [await] on an
    upstream takes is given by the upstream itself. *)

From stdpp Require Import gmap strings list.
From Stdlib Require Import ZArith Ascii String DecimalString.

Set Warnings "-register-all".

Local Open Scope string_scope.
Local Open Scope Z_scope.

(** ** JavaScript values *)

(** The values that travel through the proxy: parsed JSON, plus
    [undefined].  The properties of an object are listed in enumeration
    order ([Object.keys]). *)
Inductive js : Type :=
| JUndef
| JNull
| JBool (b : bool)
| JNum (n : Z)
| JStr (s : string)
| JArr (xs : list js)
| JObj (ps : list (string * js)).

(** [ToBoolean]: what [if (v)], [!v] and [v || d] test. *)
Definition truthy (v : js) : bool :=
  match v with
  | JUndef | JNull => false
  | JBool b => b
  | JNum n => negb (n =? 0)
  | JStr s => negb (String.eqb s "")
  | JArr _ | JObj _ => true
  end.

(** [v || d] *)
Definition js_or (v d : js) : js := if truthy v then v else d.

Fixpoint assoc {A} (k : string) (ps : list (string * A)) : option A :=
  match ps with
  | [] => None
  | (k', v) :: ps' => if String.eqb k k' then Some v else assoc k ps'
  end.

(** [v.k] for the property names the proxy reads from upstream data:
    [None] is the [TypeError] thrown on [undefined] and [null].  None of
    these names is defined by a prototype, but for [link] on a string. *)
Definition prop (v : js) (k : string) : option js :=
  match v with
  | JUndef | JNull => None
  | JObj ps => Some (default JUndef (assoc k ps))
  | _ => Some JUndef
  end.

(** ** The TTL cache (server.js 23-38 and 334-349) *)

Module TtlCache.
Section ttl.
Context {V : Type}.

(** [{ data, expiry }] *)
Record entry : Type := Entry { data : V; expiry : Z }.

(** The [TTL] object of the deployment, as its own properties.  The
    categories are the names the adapters pass (['wiki'], ['rss'],
    ['ddg']) and any other name of a category; a name that
    [Object.prototype] defines is not one. *)
Variable TTL : list (string * Z).

(** [TTL[type] || 300000] *)
Definition duration (type : string) : Z :=
  match assoc type TTL with
  | Some n => if n =? 0 then 300000 else n
  | None => 300000
  end.

(** [cache.set(key, { data, expiry: Date.now() + (TTL[type] || 300000) })] *)
Definition setCache (key : string) (d : V) (type : string) (now : Z)
    (cache : gmap string entry) : gmap string entry :=
  <[key := Entry d (now + duration type)]> cache.

(** [getCache]: the data of a live entry, or [null] ([None]) after
    [cache.delete(key)]. *)
Definition getCache (key : string) (now : Z) (cache : gmap string entry)
    : option V * gmap string entry :=
  match cache !! key with
  | Some cached =>
      if bool_decide (expiry cached > now) then (Some (data cached), cache)
      else (None, delete key cache)
  | None => (None, delete key cache)
  end.
End ttl.
Arguments entry : clear implicits.
End TtlCache.
Import TtlCache.

(** [const TTL = { wiki: 60 * 60 * 1000, rss: 10 * 60 * 1000 }] (line 25) *)
Definition TTL_streaming : list (string * Z) :=
  [("wiki", 60 * 60 * 1000); ("rss", 10 * 60 * 1000)].

(** [const TTL = { wiki: ..., rss: ..., ddg: 15 * 60 * 1000 }] (line 336) *)
Definition TTL_aggregate : list (string * Z) :=
  [("wiki", 60 * 60 * 1000); ("rss", 10 * 60 * 1000); ("ddg", 15 * 60 * 1000)].

(** A table of the source: one of the two above. *)
Definition source_table (TTL : list (string * Z)) : Prop :=
  TTL = TTL_streaming ∨ TTL = TTL_aggregate.

(** ** Strings *)

(** The double quote, as a one-character string. *)
Definition dquote : string := String "034"%char "".

Definition lower (c : ascii) : ascii :=
  let n := N_of_ascii c in
  if ((65 <=? n) && (n <=? 90))%N then ascii_of_N (n + 32) else c.

(** Case folding of the 26 letters of ASCII: what [s.toLowerCase()] does
    to a string of ASCII characters. *)
Fixpoint ascii_toLowerCase (s : string) : string :=
  match s with
  | EmptyString => EmptyString
  | String c s' => String (lower c) (ascii_toLowerCase s')
  end.

Lemma lower_idempotent (c : ascii) : lower (lower c) = lower c.
Proof. by destruct c as [[] [] [] [] [] [] [] []]. Qed.

Lemma ascii_toLowerCase_twice (s : string) :
  ascii_toLowerCase (ascii_toLowerCase s) = ascii_toLowerCase s.
Proof. induction s as [| c s IH]; [done |]. cbn. by rewrite lower_idempotent, IH. Qed.

(** [s.includes(sub)] *)
Fixpoint includes (s sub : string) : bool :=
  String.prefix sub s ||
  match s with
  | EmptyString => false
  | String _ s' => includes s' sub
  end.

(** [s.split(sep)] for a one-character separator. *)
Fixpoint split (sep : ascii) (s : string) : list string :=
  match s with
  | EmptyString => [EmptyString]
  | String c s' =>
      if Ascii.eqb c sep then EmptyString :: split sep s'
      else match split sep s' with
           | h :: t => String c h :: t
           | [] => [String c EmptyString]
           end
  end.

(** [xs.join(sep)] on strings. *)
Definition join (sep : string) (xs : list string) : string := String.concat sep xs.

Definition newline : ascii := "010"%char.

(** Decimal text of an integer. *)
Definition decimal (n : Z) : string := NilZero.string_of_int (Z.to_int n).

(** ** The language runtime *)

(** Two built-ins of the language whose tables are not part of the proxy
    and are not written out here: [String.prototype.toLowerCase], which
    folds the whole of Unicode, and [Number::toString], which prints the
    shortest digits that read back as the same double (with an exponent
    from 1e21 on).  The development is stated for every runtime; what it
    uses of the folding is that folding twice is folding once. *)
Class Runtime : Type :=
  { toLowerCase : string → string;
    toLowerCase_twice : ∀ s, toLowerCase (toLowerCase s) = toLowerCase s;
    Number_toString : Z → string }.

(** ** [JSON.stringify] *)

Section json.
Context {rt : Runtime}.

Definition hex (n : N) : ascii :=
  if (n <? 10)%N then ascii_of_N (48 + n) else ascii_of_N (87 + n).

(** The escape of one character inside a JSON string (QuoteJSONString). *)
Definition escape (c : ascii) : string :=
  let n := N_of_ascii c in
  if (n =? 34)%N then String "\" dquote
  else if (n =? 92)%N then "\\"
  else if (n =? 8)%N then "\b"
  else if (n =? 9)%N then "\t"
  else if (n =? 10)%N then "\n"
  else if (n =? 12)%N then "\f"
  else if (n =? 13)%N then "\r"
  else if (n <? 32)%N then "\u00" ++ String (hex (n / 16)) (String (hex (n mod 16)) "")
  else String c "".

Fixpoint escape_all (s : string) : string :=
  match s with
  | EmptyString => EmptyString
  | String c s' => escape c ++ escape_all s'
  end.

Definition quote (s : string) : string := dquote ++ escape_all s ++ dquote.

(** One [name:value] member; a property whose value has no JSON text
    ([undefined]) is left out. *)
Definition member (text : js → option string) (p : string * js) : option string :=
  match text (snd p) with
  | Some t => Some (quote (fst p) ++ ":" ++ t)
  | None => None
  end.

Definition braces (members : list string) : string := "{" ++ join "," members ++ "}".

(** [JSON.stringify(v)]; [None] is [undefined]. *)
Fixpoint JSON_stringify (v : js) : option string :=
  match v with
  | JUndef => None
  | JNull => Some "null"
  | JBool b => Some (if b then "true" else "false")
  | JNum n => Some (Number_toString n)
  | JStr s => Some (quote s)
  | JArr xs =>
      Some ("[" ++ join "," (map (λ x, default "null" (JSON_stringify x)) xs) ++ "]")
  | JObj ps =>
      Some (braces (omap (λ p, match JSON_stringify (snd p) with
                               | Some t => Some (quote (fst p) ++ ":" ++ t)
                               | None => None
                               end) ps))
  end.

(** [JSON.stringify(params)] for the object [params]: always a string. *)
Definition stringify_object (params : list (string * js)) : string :=
  braces (omap (member JSON_stringify) params).

End json.

(** ** Upstreams *)

(** What an upstream answered when it did not answer with a success:
    [error.response] of axios. *)
Record upstream_response : Type :=
  { r_status : Z; r_statusText : string; r_data : js }.

(** A thrown error, with the fields the handlers look at. *)
Record error : Type :=
  { isAxiosError : bool;
    code : string;
    response : option upstream_response;
    message : string }.

(** An awaited promise: resolved with a value or rejected with an error. *)
Inductive outcome (A : Type) : Type :=
| Resolved (a : A)
| Rejected (e : error).
Arguments Resolved {A} a.
Arguments Rejected {A} e.

(** An item of a parsed feed, with the fields of rss-parser the proxy
    reads; [None] is a field the feed did not give. *)
Record item : Type :=
  { title : option string;
    contentSnippet : option string;
    content : option string;
    link : option string }.

(** What [parser.parseURL] resolves to. *)
Record parsedFeed : Type := { items : list item }.


(** One [fetch] of the generative API: the promise is rejected, or a
    response arrives with its [ok] flag and status, whose body the
    upstream sends as [chunks] (each one as [Buffer.from(value).toString()]
    would give it), to the end ([complete = true]) or until the
    connection breaks ([complete = false]). *)
Inductive attempt : Type :=
| FetchRejected
| Responded (ok : bool) (status : Z) (chunks : list string) (complete : bool).

(** The upstream calls a handler can issue. *)
Inductive call : Type :=
| GetWikipedia (params : list (string * js))
| ParseURL (url : string)
| GetSearch (query : js)
| PostGemini (model key text : string).

(** The outside world: what each upstream call made at a given time
    settles to, and how many milliseconds it takes. *)
Record network : Type :=
  { axios_wikipedia : Z → list (string * js) → outcome js * N;
    parser_parseURL : Z → string → outcome parsedFeed * N;
    axios_search : Z → js → outcome js * N;
    fetch_gemini : Z → string → string → string → attempt * N }.

(** ** Template literals and parsed feeds *)

Section text.
Context {rt : Runtime}.

(** [`${v}`], for a value the conversion does not throw on. *)
Fixpoint ToString (v : js) : string :=
  match v with
  | JUndef => "undefined"
  | JNull => "null"
  | JBool b => if b then "true" else "false"
  | JNum n => Number_toString n
  | JStr s => s
  | JArr xs =>
      join "," (map (λ x, match x with
                          | JUndef | JNull => ""
                          | _ => ToString x
                          end) xs)
  | JObj _ => "[object Object]"
  end.

(** Where [`${v}`] throws a [TypeError] instead.  A parsed JSON value
    holds no function: an object with an own [toString] property has no
    [toString] to call, and the [valueOf] it inherits returns the object
    itself, so [ToPrimitive] gives up; an object without one inherits
    [Object.prototype.toString].  An array joins its elements, converting
    each one that is not [undefined] or [null]. *)
Fixpoint ToString_throws (v : js) : bool :=
  match v with
  | JObj ps => match assoc "toString" ps with Some _ => true | None => false end
  | JArr xs => existsb (λ x, ToString_throws x) xs
  | _ => false
  end.

(** The [message] of that [TypeError]. *)
Definition cannot_convert : string := "Cannot convert object to primitive value".

Definition field (k : string) (o : option string) : list (string * js) :=
  match o with
  | Some s => [(k, JStr s)]
  | None => []
  end.

(** The object rss-parser builds for an item: the fields it found. *)
Definition js_of_item (i : item) : js :=
  JObj (field "title" (title i) ++ field "link" (link i)
        ++ field "content" (content i)
        ++ field "contentSnippet" (contentSnippet i))%list.

(** The object [parser.parseURL] resolves to. *)
Definition js_of_feed (f : parsedFeed) : js :=
  JObj [("items", JArr (map js_of_item (items f)))].




End text.

(** ** Process state *)

(** The module-level state of a deployment: [cache], [wikiNodeCache], the
    clock, and the upstream calls issued so far (latest first). *)
Record world : Type :=
  World { cache : gmap string (entry js);
          wikiNodeCache : gmap string js;
          now : Z;
          calls : list call }.

(** Computations over a state. *)
Definition M (S A : Type) : Type := S → A * S.
Definition ret {S A} (a : A) : M S A := λ s, (a, s).
Definition bind {S A B} (m : M S A) (k : A → M S B) : M S B :=
  λ s, let (a, s') := m s in k a s'.

Notation "x <~ m ;; k" := (bind m (λ x, k))
  (at level 100, m at next level, right associativity).
Notation "m ;;; k" := (bind m (λ _, k))
  (at level 100, right associativity).

(** A [for ... of] loop whose body runs to completion before the next
    iteration starts; the results in order. *)
Fixpoint for_each {S A B} (body : A → M S B) (xs : list A) : M S (list B) :=
  match xs with
  | [] => ret []
  | x :: xs' => b <~ body x ;; bs <~ for_each body xs' ;; ret (b :: bs)
  end.

(** What a handler sends: [res.status(s).json(body)], or a plain-text
    body written piece by piece and ended. *)
Inductive reply : Type :=
| Json (status : Z) (body : js)
| Text (status : Z) (written : list string).

Section world_ops.
Context {rt : Runtime}.
Variable TTL : list (string * Z).
Variable net : network.

(** [getCache(key)] on the process cache, at the current time; [null] and
    a missing entry both read as [JNull]. *)
Definition getCacheM (key : string) : M world js :=
  λ w, let (r, c) := getCache key (now w) (cache w) in
       (default JNull r, World c (wikiNodeCache w) (now w) (calls w)).

(** [setCache(key, data, type)] on the process cache, at the current time. *)
Definition setCacheM (key : string) (d : js) (type : string) : M world () :=
  λ w, ((), World (setCache TTL key d type (now w) (cache w))
                  (wikiNodeCache w) (now w) (calls w)).

(** An awaited upstream call: it is recorded, and the clock has advanced
    by its latency when the handler resumes. *)
Definition await {A} (c : call) (ask : Z → A * N) : M world A :=
  λ w, let (a, ms) := ask (now w) in
       (a, World (cache w) (wikiNodeCache w) (now w + Z.of_N ms) (c :: calls w)).

(** [await axios.get('https://en.wikipedia.org/w/api.php', { params, ... })],
    resolved with [response.data]. *)
Definition get_wikipedia (params : list (string * js)) : M world (outcome js) :=
  await (GetWikipedia params) (λ t, axios_wikipedia net t params).

(** [await parser.parseURL(url)] *)
Definition parseURL (url : string) : M world (outcome js) :=
  await (ParseURL url)
        (λ t, let (r, ms) := parser_parseURL net t url in
              (match r with
               | Resolved f => Resolved (js_of_feed f)
               | Rejected e => Rejected e
               end, ms)).

(** ** The passthrough endpoint over a [Map] (server.js 191-212, 498-519) *)

Definition wikiNodeCache_get (key : string) : M world js :=
  λ w, (default JUndef (wikiNodeCache w !! key), w).

Definition wikiNodeCache_set (key : string) (d : js) : M world () :=
  λ w, ((), World (cache w) (<[key := d]> (wikiNodeCache w)) (now w) (calls w)).

(** [app.get('/api/wikipedia', ...)]; [params] is [req.query]. *)
Definition api_wikipedia (params : list (string * js)) : M world reply :=
  let cacheKey := stringify_object params in
  cached <~ wikiNodeCache_get cacheKey ;;
  if truthy cached then ret (Json 200 cached)
  else
    r <~ get_wikipedia params ;;
    match r with
    | Resolved d =>
        wikiNodeCache_set cacheKey d ;;;
        ret (Json 200 d)
    | Rejected err =>
        ret (Json 500 (JObj [("error", JStr (message err))]))
    end.
End world_ops.

(** ** The passthrough built on node-cache (server.js 224-312) *)

Module NodeCacheProxy.

(** The state of this deployment: the store of
    [new NodeCache({ stdTTL: 600, checkperiod: 900 })], the clock and the
    upstream calls issued so far (latest first). *)
Record state : Type :=
  State { store : gmap string (entry js); clock : Z; issued : list call }.

(** [stdTTL], in seconds. *)
Definition stdTTL : Z := 600.

(** [cache.get(key)] of node-cache: the value of an entry whose time has
    not passed; an entry whose time has passed is deleted and reads as
    [undefined]. *)
Definition cache_get (key : string) : M state js :=
  λ s, match store s !! key with
       | Some e =>
           if bool_decide (expiry e < clock s)
           then (JUndef, State (delete key (store s)) (clock s) (issued s))
           else (data e, s)
       | None => (JUndef, s)
       end.

(** [cache.set(key, value)] of node-cache: the value lives [stdTTL] seconds. *)
Definition cache_set (key : string) (d : js) : M state () :=
  λ s, ((), State (<[key := Entry d (clock s + stdTTL * 1000)]> (store s))
                  (clock s) (issued s)).

Section handler.
Context {rt : Runtime}.
Variable net : network.

(** [await axios.get(WIKIPEDIA_API_BASE_URL, { params, ... })] *)
Definition get_wikipedia (params : list (string * js)) : M state (outcome js) :=
  λ s, let (a, ms) := axios_wikipedia net (clock s) params in
       (a, State (store s) (clock s + Z.of_N ms) (GetWikipedia params :: issued s)).

(** The [catch] block (lines 281-299). *)
Definition on_error (err : error) : reply :=
  let unexpected :=
    Json 500 (JObj [("error", JStr ("An unexpected error occurred: " ++ message err))]) in
  if isAxiosError err then
    if String.eqb (code err) "ECONNABORTED" then
      Json 504 (JObj [("error", JStr "Request to Wikipedia API timed out.")])
    else
      match response err with
      | Some r =>
          Json (r_status r)
               (JObj [("error", JStr ("Error fetching from Wikipedia API: " ++ r_statusText r));
                      ("details", r_data r)])
      | None => unexpected
      end
  else unexpected.

(** [app.get('/api/wikipedia', ...)]; [params] is [req.query]. *)
Definition api_wikipedia (params : list (string * js)) : M state reply :=
  let cacheKey := stringify_object params in
  cachedData <~ cache_get cacheKey ;;
  if truthy cachedData then ret (Json 200 cachedData)
  else
    r <~ get_wikipedia params ;;
    match r with
    | Resolved d =>
        cache_set cacheKey d ;;;
        ret (Json 200 d)
    | Rejected err => ret (on_error err)
    end.
End handler.

(** Time passing between two requests. *)
Definition at_clock (t : Z) (s : state) : state := State (store s) t (issued s).

End NodeCacheProxy.

(** ** Shared by the summary adapters *)

(** [Object.keys(pages)[0]] followed by [pages[pageId]]: the value of the
    first property; [None] is the [TypeError] of [Object.keys]. *)
Definition first_page (pages : js) : option js :=
  match pages with
  | JUndef | JNull => None
  | JObj ((_, v) :: _) => Some v
  | JArr (v :: _) => Some v
  | JStr (String c _) => Some (JStr (String c ""))
  | _ => Some JUndef
  end.

(** Lines 61-63 and 375-377: the extract of the first page of
    [response.data], or the stand-in text; [None] is a [TypeError] on the
    way. *)
Definition extract_of (d : js) : option js :=
  q ← prop d "query";
  pages ← prop q "pages";
  page ← first_page pages;
  e ← prop page "extract";
  Some (js_or e (JStr "No Wikipedia content found.")).

(** ** The streaming deployment (server.js 1-223) *)

Module Streaming.
Section runtime.
Context {rt : Runtime}.

Definition nl : string := String newline "".

(** The [params] of the summary request (lines 47-53). *)
Definition summary_params (query : js) : list (string * js) :=
  [("action", JStr "query"); ("prop", JStr "extracts"); ("explaintext", JStr "true");
   ("titles", query); ("format", JStr "json")].

(** [extract.split('\n').slice(0, 5).join('\n')]; [None] is the
    [TypeError] on a value without [split]. *)
Definition trim (extract : js) : option js :=
  match extract with
  | JStr s => Some (JStr (join nl (take 5 (split newline s))))
  | _ => None
  end.

(** Lines 61-64, the [try] block after its [await]: the trimmed extract,
    or [None] when the request was rejected or a [TypeError] is thrown. *)
Definition try_summary (r : outcome js) : option js :=
  match r with
  | Resolved d => extract_of d ≫= trim
  | Rejected _ => None
  end.

(** Lines 81-84: the headlines of a parsed feed; [None] is a [TypeError]
    on the way. *)
Definition headlines_of (feed : js) : option js :=
  its ← prop feed "items";
  match its with
  | JArr xs =>
      lines ← mapM (λ it, t ← prop it "title";
                          l ← prop it "link";
                          Some ("- " ++ ToString t ++ " (" ++ ToString l ++ ")"))
                   (take 5 xs);
      Some (JStr (join nl lines))
  | _ => None
  end.

(** [fetchRSS(feedUrl)] up to its first [await]: the cached value, or the
    request it has sent, with what the request settles to and when. *)
Inductive started : Type :=
| Cached (v : js)
| Pending (feedUrl : string) (r : outcome js) (ms : N).

(** What [fetchRSS] resolves to. *)
Definition settled (s : started) : js :=
  match s with
  | Cached v => v
  | Pending feedUrl (Resolved feed) _ =>
      match headlines_of feed with
      | Some headlines => headlines
      | None => JStr ("Error fetching RSS from " ++ feedUrl)
      end
  | Pending feedUrl (Rejected _) _ => JStr ("Error fetching RSS from " ++ feedUrl)
  end.

(** The [setCache] a started [fetchRSS] performs when it resumes: after
    how long, on which key, with which data. *)
Definition write_back (s : started) : option (N * (string * js)) :=
  match s with
  | Pending feedUrl (Resolved feed) ms =>
      match headlines_of feed with
      | Some headlines => Some (ms, ("rss:" ++ feedUrl, headlines))
      | None => None
      end
  | _ => None
  end.

Definition latency (s : started) : N :=
  match s with
  | Cached _ => 0%N
  | Pending _ _ ms => ms
  end.

(** Pending requests resume in the order they settle; those that settle
    together, in the order they were sent. *)
Fixpoint resume_after {A} (x : N * A) (xs : list (N * A)) : list (N * A) :=
  match xs with
  | [] => [x]
  | y :: ys => if (fst x <? fst y)%N then x :: y :: ys else y :: resume_after x ys
  end.

Definition resume_order {A} (xs : list (N * A)) : list (N * A) :=
  foldl (λ acc x, resume_after x acc) [] xs.

(** The generative models, in fallback order (line 138). *)
Definition models : list string := ["gemini-2.0-flash"; "gemini-1.5-flash"].

(** The last thing written when nothing succeeded (line 182). *)
Definition all_failed : string := "Error: All Gemini models and API keys failed.".

Section deployment.
Variable net : network.

(** [feedsConfig.feeds || []] *)
Variable feedUrls : list string.

(** [process.env.GEMINI_API_KEY_1], [process.env.GEMINI_API_KEY_2] *)
Variable GEMINI_API_KEY_1 GEMINI_API_KEY_2 : option string.

(** [fetchWikipedia(query)] (lines 41-71), for a query that has a text.
    The key [`wiki:${query}`] is its first statement and outside its
    [try]: a query without text throws there, before anything is looked
    up, which the handler below accounts for. *)
Definition fetchWikipedia (query : js) : M world js :=
  let cacheKey := "wiki:" ++ ToString query in
  cached <~ getCacheM cacheKey ;;
  if truthy cached then ret cached
  else
    r <~ get_wikipedia net (summary_params query) ;;
    match try_summary r with
    | Some trimmed =>
        setCacheM TTL_streaming cacheKey trimmed "wiki" ;;;
        ret trimmed
    | None => ret (JStr "Error fetching Wikipedia.")
    end.

(** [fetchRSS(feedUrl)] up to its first [await] (lines 75-80): the clock
    does not move. *)
Definition start_fetchRSS (feedUrl : string) : M world started :=
  cached <~ getCacheM ("rss:" ++ feedUrl) ;;
  if truthy cached then ret (Cached cached)
  else
    λ w, let (r, ms) := parser_parseURL net (now w) feedUrl in
         (Pending feedUrl (match r with
                           | Resolved f => Resolved (js_of_feed f)
                           | Rejected e => Rejected e
                           end) ms,
          World (cache w) (wikiNodeCache w) (now w) (ParseURL feedUrl :: calls w)).

(** [await Promise.all(urls.map((url) => fetchRSS(url)))]: every
    [fetchRSS] runs to its [await] at once, then each resumes when its
    request settles and writes the cache at that time; the handler
    resumes when the last one has. *)
Definition fetchRSS_all (urls : list string) : M world (list js) :=
  ss <~ for_each start_fetchRSS urls ;;
  λ w, let writes := resume_order (omap write_back ss) in
       let cache' :=
         foldl (λ c x, setCache TTL_streaming (fst (snd x)) (snd (snd x)) "rss"
                                (now w + Z.of_N (fst x)) c)
               (cache w) writes in
       (map settled ss,
        World cache' (wikiNodeCache w)
              (now w + Z.of_N (foldr N.max 0%N (map latency ss))) (calls w)).

(** [fetchRSS(feedUrl)] awaited on its own. *)
Definition fetchRSS (feedUrl : string) : M world js :=
  rs <~ fetchRSS_all [feedUrl] ;; ret (default JUndef (head rs)).

(** [preloadFeeds()] *)
Definition preloadFeeds : M world () :=
  fetchRSS_all feedUrls ;;; ret ().

(** [await fetch(geminiUrl, { method: 'POST', ... })] and the reading of
    its body. *)
Definition post_gemini (model key text : string) : M world attempt :=
  await (PostGemini model key text) (λ t, fetch_gemini net t model key text).

(** [response.body.getReader()] (line 167).  [fetch] is the one of
    node-fetch (line 4): the [body] of its response is a Node.js stream,
    which has no [getReader], so the call throws a [TypeError] inside the
    [try].  [None] is that throw; a reader would hand over the chunks and
    whether the body ended. *)
Definition getReader (chunks : list string) (complete : bool)
    : option (list string * bool) := None.

(** The inner loop (lines 145-179) for one key, from the models still to
    try; [written] is what [res.write] has sent so far.  It returns what
    has been sent and whether [break outer] was taken. *)
Fixpoint try_models (key text : string) (ms : list string) (written : list string)
    : M world (list string * bool) :=
  match ms with
  | [] => ret (written, false)
  | model :: ms' =>
      a <~ post_gemini model key text ;;
      match a with
      | FetchRejected => try_models key text ms' written
      | Responded ok _ chunks complete =>
          if negb ok then try_models key text ms' written
          else
            match getReader chunks complete with
            | Some (read, ended) =>
                if ended : bool then ret ((written ++ read)%list, true)
                else try_models key text ms' (written ++ read)%list
            | None => try_models key text ms' written
            end
      end
  end.

(** The outer loop (lines 144-180). *)
Fixpoint try_keys (text : string) (keys : list string) (written : list string)
    : M world (list string * bool) :=
  match keys with
  | [] => ret (written, false)
  | key :: keys' =>
      r <~ try_models key text models written ;;
      if snd r then ret r else try_keys text keys' (fst r)
  end.

(** [[KEY_1, KEY_2].filter(Boolean)] *)
Definition geminiKeys : list string :=
  omap (λ k, match k with
             | Some s => if String.eqb s "" then None else Some s
             | None => None
             end) [GEMINI_API_KEY_1; GEMINI_API_KEY_2].

(** Lines 111-113, [feedUrls.map(...).join('\n\n')] with one line
    [`Feed: ${url}\n${rssResults[i]}`] per feed; [rssResults] has one
    result per feed. *)
Definition rss_text (rssResults : list js) : string :=
  join (nl ++ nl)
       (zip_with (λ url r, "Feed: " ++ url ++ nl ++ ToString r) feedUrls rssResults).

(** The template literal of lines 115-125. *)
Definition finalPrompt (prompt wikiText : js) (rssText : string) : string :=
  nl ++ "You are a news & trivia assistant. The user asked: " ++ dquote
     ++ ToString prompt ++ dquote ++ nl
  ++ nl
  ++ "🔹 Wikipedia background:" ++ nl
  ++ ToString wikiText ++ nl
  ++ nl
  ++ "🔹 Latest headlines from RSS feeds:" ++ nl
  ++ rssText ++ nl
  ++ nl
  ++ "⚠️ Important: Use the info above. Summarize naturally. Include Wikipedia context." ++ nl.

(** The answer of the outer [catch] (lines 184-187) to a [TypeError] of a
    template literal. *)
Definition conversion_failed : reply :=
  Json 500 (JObj [("error", JStr cannot_convert)]).

(** [app.post('/generate', ...)] (lines 103-188); [body] is the object
    [req.body].  The outer [catch] is entered from a template literal
    outside the adapters' [try] blocks: the key [`wiki:${query}`], first
    statement of [fetchWikipedia], before anything is looked up or
    fetched; and the lines of [rssText] and [finalPrompt], which convert
    the results read from the cache after the adapters have run. *)
Definition generate (body : list (string * js)) : M world reply :=
  let prompt := default JUndef (assoc "prompt" body) in
  if negb (truthy prompt) then ret (Json 400 (JObj [("error", JStr "Missing prompt")]))
  else if ToString_throws prompt then ret conversion_failed
  else
    wikiText <~ fetchWikipedia prompt ;;
    rssResults <~ fetchRSS_all feedUrls ;;
    if existsb ToString_throws rssResults || ToString_throws wikiText
    then ret conversion_failed
    else
      let rssText := rss_text rssResults in
      if (List.length geminiKeys =? 0)%nat
      then ret (Json 500 (JObj [("error", JStr "No Gemini API keys provided")]))
      else
        r <~ try_keys (finalPrompt prompt wikiText rssText) geminiKeys [] ;;
        ret (Text 200 (if snd r then fst r else (fst r ++ [all_failed])%list)).
End deployment.
End runtime.
End Streaming.

(** ** The JSON deployment (server.js 313-529) *)

Module Aggregate.
Section runtime.
Context {rt : Runtime}.

(** An entry of [feedsConfig.rssFeeds]. *)
Record FeedSource : Type := { name : option string; url : string }.

(** [feed.name || feed.url] *)
Definition feed_label (feed : FeedSource) : js :=
  js_or (match name feed with Some n => JStr n | None => JUndef end) (JStr (url feed)).

(** The [params] of the summary request (lines 358-365). *)
Definition summary_params (query : js) : list (string * js) :=
  [("action", JStr "query"); ("prop", JStr "extracts"); ("explaintext", JStr "true");
   ("titles", query); ("format", JStr "json"); ("exintro", JBool false)].

(** [v.toLowerCase()]; [None] is the [TypeError] on a value without that
    method. *)
Definition lowered (v : js) : option string :=
  match v with
  | JStr s => Some (toLowerCase s)
  | _ => None
  end.

(** [item[k] && item[k].toLowerCase().includes(prompt.toLowerCase())],
    as the truth value [filter] sees. *)
Definition field_matches (prompt : js) (k : string) (it : js) : option bool :=
  f ← prop it k;
  if truthy f then
    a ← lowered f;
    b ← lowered prompt;
    Some (includes a b)
  else Some false.

(** The callback of [parsedFeed.items.filter] (lines 430-434). *)
Definition item_matches (prompt : js) (it : js) : option bool :=
  match field_matches prompt "title" it with
  | Some true => Some true
  | Some false => field_matches prompt "contentSnippet" it
  | None => None
  end.

(** [xs.filter(item_matches)], the callback run on every element in order. *)
Fixpoint filter_items (prompt : js) (xs : list js) : option (list js) :=
  match xs with
  | [] => Some []
  | x :: xs' =>
      b ← item_matches prompt x;
      r ← filter_items prompt xs';
      Some (if b : bool then x :: r else r)
  end.

(** The callback of [.map] on the kept items (lines 440-445). *)
Definition format_item (it : js) : option js :=
  t ← prop it "title";
  s ← prop it "contentSnippet";
  c ← prop it "content";
  l ← prop it "link";
  Some (JObj [("title", js_or t (JStr "Untitled"));
              ("description", js_or (js_or s c) (JStr "No description available."));
              ("link", js_or l (JStr "No link available."))]).

(** [{ title: `No matching articles found for "${prompt}"` }], for a
    prompt that has a text: the handler reaches the feeds after the
    summary key has been built from the same prompt, and the preload
    passes the empty string. *)
Definition no_match (prompt : js) : js :=
  JObj [("title", JStr ("No matching articles found for " ++ dquote
                        ++ ToString prompt ++ dquote))].

(** Lines 429-446: the [articles] of a parsed feed for a prompt; [None] is
    a [TypeError] thrown on the way. *)
Definition articles_of (prompt : js) (parsedFeed : js) : option (list js) :=
  its ← prop parsedFeed "items";
  match its with
  | JArr xs =>
      kept ← filter_items prompt xs;
      if (List.length kept =? 0)%nat then Some [no_match prompt]
      else mapM format_item (take 5 kept)
  | _ => None
  end.

(** Lines 399-404: the formatted results of [response.data]; [None] is a
    [TypeError] on the way.  The elements are the objects the search API
    lists. *)
Definition format_results (d : js) : option js :=
  let results :=
    js_or (match d with
           | JUndef | JNull => JUndef
           | _ => default JUndef (prop d "results")
           end) (JArr []) in
  match results with
  | JArr rs =>
      JArr <$> mapM (λ r, t ← prop r "title";
                          l ← prop r "link";
                          s ← prop r "snippet";
                          Some (JObj [("title", t); ("link", l); ("snippet", s)]))
                    (take 10 rs)
  | _ => None
  end.

(** Lines 375-377, the [try] block after its [await]: the extract, or
    [None] when the request was rejected or a [TypeError] is thrown. *)
Definition try_summary (r : outcome js) : option js :=
  match r with
  | Resolved d => extract_of d
  | Rejected _ => None
  end.

(** Lines 399-404, the [try] block after its [await]. *)
Definition try_results (r : outcome js) : option js :=
  match r with
  | Resolved d => format_results d
  | Rejected _ => None
  end.

(** [[{ title: 'Error fetching DuckDuckGo results', link: '', snippet: '' }]] *)
Definition search_failed : js :=
  JArr [JObj [("title", JStr "Error fetching DuckDuckGo results");
              ("link", JStr ""); ("snippet", JStr "")]].

(** [{ feed: feed.name || feed.url, articles }] *)
Definition formatted (feed : FeedSource) (articles : list js) : js :=
  JObj [("feed", feed_label feed); ("articles", JArr articles)].

(** The [catch] of the loop body: [{ feed, error: `Error fetching feed` }]. *)
Definition feed_failed (feed : FeedSource) : js :=
  JObj [("feed", feed_label feed); ("error", JStr "Error fetching feed")].

Section deployment.
Variable net : network.

(** [feedsConfig.rssFeeds || []] *)
Variable feedUrls : list FeedSource.

(** [fetchWikipedia(query)] (lines 352-385), for a query that has a
    text.  The key [`wiki:${query}`] is its first statement and outside
    its [try]: a query without text throws there, before anything is
    looked up, which the handler below accounts for. *)
Definition fetchWikipedia (query : js) : M world js :=
  let cacheKey := "wiki:" ++ ToString query in
  cached <~ getCacheM cacheKey ;;
  if truthy cached then ret cached
  else
    r <~ get_wikipedia net (summary_params query) ;;
    match try_summary r with
    | Some extract =>
        setCacheM TTL_aggregate cacheKey extract "wiki" ;;;
        ret extract
    | None => ret (JStr "Error fetching Wikipedia.")
    end.

(** [await axios.get('https://ddg-api.herokuapp.com/search', { params: { query }, ... })] *)
Definition get_search (query : js) : M world (outcome js) :=
  await (GetSearch query) (λ t, axios_search net t query).

(** [fetchDuckDuckGo(query)] (lines 388-414), for a query that has a
    text; the handler calls it after [fetchWikipedia] has built its key
    from the same query. *)
Definition fetchDuckDuckGo (query : js) : M world js :=
  let cacheKey := "ddg:" ++ ToString query in
  cached <~ getCacheM cacheKey ;;
  if truthy cached then ret cached
  else
    r <~ get_search query ;;
    match try_results r with
    | Some results =>
        setCacheM TTL_aggregate cacheKey results "ddg" ;;;
        ret results
    | None => ret search_failed
    end.

(** Lines 421-426: [cached || (await parser.parseURL(feed.url))], after
    the lookup [getCache(cacheKey)]. *)
Definition obtain (feed : FeedSource) : M world (outcome js) :=
  cached <~ getCacheM ("rss:" ++ url feed) ;;
  if truthy cached then ret (Resolved cached) else parseURL net (url feed).

(** One iteration of the loop of [fetchRSSFeeds] (lines 420-462). *)
Definition feed_step (prompt : js) (feed : FeedSource) : M world js :=
  let cacheKey := "rss:" ++ url feed in
  r <~ obtain feed ;;
  match r with
  | Resolved parsedFeed =>
      match articles_of prompt parsedFeed with
      | Some articles =>
          setCacheM TTL_aggregate cacheKey parsedFeed "rss" ;;;
          ret (formatted feed articles)
      | None => ret (feed_failed feed)
      end
  | Rejected _ => ret (feed_failed feed)
  end.

(** [fetchRSSFeeds(feeds, prompt)] *)
Definition fetchRSSFeeds (feeds : list FeedSource) (prompt : js) : M world (list js) :=
  for_each (feed_step prompt) feeds.

(** [preloadFeeds()] *)
Definition preloadFeeds : M world () :=
  fetchRSSFeeds feedUrls (JStr "") ;;; ret ().

(** [app.post('/generate', ...)] (lines 477-495); [body] is the object
    [req.body].  The outer [catch] (lines 491-494) is entered when the
    key [`wiki:${query}`] throws: it is the first statement of
    [fetchWikipedia] and outside its [try], so nothing has been looked up
    or fetched by then.  When that key exists so does [`ddg:${query}`],
    and every other statement that can throw is inside a [try] of an
    adapter. *)
Definition generate (body : list (string * js)) : M world reply :=
  let prompt := default JUndef (assoc "prompt" body) in
  if negb (truthy prompt) then ret (Json 400 (JObj [("error", JStr "Missing prompt")]))
  else if ToString_throws prompt
  then ret (Json 500 (JObj [("error", JStr cannot_convert)]))
  else
    wikiText <~ fetchWikipedia prompt ;;
    rssResults <~ fetchRSSFeeds feedUrls prompt ;;
    ddgResults <~ fetchDuckDuckGo prompt ;;
    ret (Json 200 (JObj [("wikipedia", wikiText);
                         ("rss", JArr rssResults);
                         ("duckduckgo", ddgResults)])).
End deployment.
End runtime.
End Aggregate.

(** ** Reference descriptions

    The behaviour the specification words, on typed data, to be compared
    with the functions embedded from the source. *)

Module Described.
Section runtime.
Context {rt : Runtime}.

(** A present, non-empty field contains the query, letter case aside. *)
Definition has_text (q : string) (o : option string) : bool :=
  match o with
  | Some s => negb (String.eqb s "") && includes (toLowerCase s) (toLowerCase q)
  | None => false
  end.

(** Case-insensitive substring match on title or snippet. *)
Definition matches (q : string) (i : item) : bool :=
  has_text q (title i) || has_text q (contentSnippet i).

Definition or_text (o : option string) (d : string) : string :=
  match o with
  | Some s => if String.eqb s "" then d else s
  | None => d
  end.

(** An item formatted as title/description/link. *)
Definition article (i : item) : js :=
  JObj [("title", JStr (or_text (title i) "Untitled"));
        ("description",
         JStr (or_text (contentSnippet i) (or_text (content i) "No description available.")));
        ("link", JStr (or_text (link i) "No link available."))].

(** The first 5 matching items in feed order, formatted; one placeholder
    naming the query when nothing matches. *)
Definition filtered (q : string) (f : parsedFeed) : list js :=
  match List.filter (matches q) (items f) with
  | [] => [JObj [("title", JStr ("No matching articles found for " ++ dquote ++ q ++ dquote))]]
  | kept => map article (take 5 kept)
  end.

(** An item with something for the filter to read: a non-empty title or a
    non-empty snippet. *)
Definition readable (i : item) : bool :=
  let nonempty (o : option string) :=
    match o with
    | Some s => negb (String.eqb s "")
    | None => false
    end in
  nonempty (title i) || nonempty (contentSnippet i).

(** The articles of a feed for any prompt.  A prompt that is not a string
    has no [toLowerCase]: the filter throws as soon as it has something to
    read ([None]), and with nothing to read it keeps nothing. *)
Definition articles (prompt : js) (f : parsedFeed) : option (list js) :=
  match prompt with
  | JStr q => Some (filtered q f)
  | _ =>
      if existsb readable (items f) then None
      else Some [JObj [("title", JStr ("No matching articles found for " ++ dquote
                                       ++ ToString prompt ++ dquote))]]
  end.

(** The name of a configured feed, its address when it has none. *)
Definition label (feed : Aggregate.FeedSource) : js :=
  JStr (or_text (Aggregate.name feed) (Aggregate.url feed)).

(** The entry of the [rss] array for a feed, from how its fetch settled. *)
Definition entry (prompt : js) (feed : Aggregate.FeedSource) (a : outcome parsedFeed) : js :=
  let failed := JObj [("feed", label feed); ("error", JStr "Error fetching feed")] in
  match a with
  | Resolved f =>
      match articles prompt f with
      | Some arts => JObj [("feed", label feed); ("articles", JArr arts)]
      | None => failed
      end
  | Rejected _ => failed
  end.


(** The (credential, model) pairs, credentials outermost. *)
Definition combos (keys : list string) : list (string * string) :=
  flat_map (λ key, map (λ model, (key, model)) Streaming.models) keys.

(** An attempt that ran to the end of its body. *)
Definition succeeded (a : attempt) : bool :=
  match a with
  | Responded true _ _ true => true
  | _ => false
  end.

(** The chunks of an attempt that reached the caller: those read from a
    response that was [ok]. *)
Definition relayed (a : attempt) : list string :=
  match a with
  | Responded true _ chunks _ => chunks
  | _ => []
  end.

(** An attempt made: its pair, how it went, how long it took. *)
Record tried : Type :=
  Tried { pair_of : string * string; went : attempt; took : N }.

(** Iteration over the pairs in order, each attempt starting when the one
    before has settled, with exit on the first success: the attempts made. *)
Fixpoint attempts (net : network) (text : string) (cs : list (string * string)) (t : Z)
    : list tried :=
  match cs with
  | [] => []
  | (key, model) :: cs' =>
      let (a, ms) := fetch_gemini net t model key text in
      Tried (key, model) a ms
      :: (if succeeded a then [] else attempts net text cs' (t + Z.of_N ms))
  end.

(** What the attempts made have sent to the caller, in order. *)
Definition output (made : list tried) : list string :=
  flat_map (λ x, relayed (went x)) made.

(** The requests for the pairs in order, latest first. *)
Definition requests (text : string) (cs : list (string * string)) : list call :=
  rev (map (λ c, PostGemini (snd c) (fst c) text) cs).

End runtime.
End Described.

(** ** Time passing between two requests *)

Section time.
Context {rt : Runtime}.

Definition at_time (t : Z) (w : world) : world :=
  World (cache w) (wikiNodeCache w) t (calls w).

Definition later (gap : Z) (w : world) : world := at_time (now w + gap) w.

(** A run of requests for one feed, each one [gap] milliseconds after the
    one before has finished. *)
Definition reads (net : network) (feed : Aggregate.FeedSource) (rs : list (Z * string))
    : M world (list js) :=
  for_each (λ r w, Aggregate.feed_step net (JStr (snd r)) feed (later (fst r) w)) rs.

End time.

(** ** Sample inputs *)

Module Sample.

Definition cats : item :=
  {| title := Some "Cats rule the web"; contentSnippet := Some "All about cats";
     content := None; link := Some "https://news.example/cats" |}.

Definition dogs : item :=
  {| title := Some "Dog show"; contentSnippet := None;
     content := Some "<p>Dogs</p>"; link := None |}.

Definition feed : parsedFeed := {| items := [cats; dogs] |}.

Definition source : Aggregate.FeedSource :=
  {| Aggregate.name := Some "Example"; Aggregate.url := "https://news.example/rss" |}.

Definition page : js :=
  JObj [("batchcomplete", JStr "");
        ("query", JObj [("pages", JObj [("6678", JObj [("pageid", JNum 6678);
                                                        ("title", JStr "Cat");
                                                        ("extract", JStr "The cat is a mammal.")])])])].

Definition hits : js :=
  JObj [("results", JArr [JObj [("title", JStr "Cat"); ("link", JStr "https://a.example");
                                ("snippet", JStr "A cat")]])].

Definition not_found : error :=
  {| isAxiosError := true; code := "ERR_BAD_REQUEST";
     response := Some {| r_status := 404; r_statusText := "Not Found";
                         r_data := JObj [("error", JStr "no such page")] |};
     message := "Request failed with status code 404" |}.

Definition timed_out : error :=
  {| isAxiosError := true; code := "ECONNABORTED"; response := None;
     message := "timeout of 15000ms exceeded" |}.

(** Every upstream answers. *)
Definition up : network :=
  {| axios_wikipedia := λ _ _, (Resolved page, 120%N);
     parser_parseURL := λ _ _, (Resolved feed, 80%N);
     axios_search := λ _ _, (Resolved hits, 200%N);
     fetch_gemini := λ _ _ _ _, (Responded true 200 ["Cats "; "are mammals."] true, 900%N) |}.

(** The encyclopedia answers 404, the generative API is unreachable. *)
Definition wiki_down : network :=
  {| axios_wikipedia := λ _ _, (Rejected not_found, 60%N);
     parser_parseURL := λ _ _, (Resolved feed, 80%N);
     axios_search := λ _ _, (Resolved hits, 200%N);
     fetch_gemini := λ _ _ _ _, (FetchRejected, 30%N) |}.

(** The search API does not answer in time. *)
Definition search_down : network :=
  {| axios_wikipedia := λ _ _, (Resolved page, 120%N);
     parser_parseURL := λ _ _, (Resolved feed, 80%N);
     axios_search := λ _ _, (Rejected timed_out, 15000%N);
     fetch_gemini := λ _ _ _ _, (FetchRejected, 30%N) |}.

(** The encyclopedia answers an empty body. *)
Definition wiki_empty : network :=
  {| axios_wikipedia := λ _ _, (Resolved (JStr ""), 60%N);
     parser_parseURL := λ _ _, (Resolved feed, 80%N);
     axios_search := λ _ _, (Resolved hits, 200%N);
     fetch_gemini := λ _ _ _ _, (FetchRejected, 30%N) |}.

Definition start : world := World ∅ ∅ 1000 [].

Definition ask : list (string * js) := [("prompt", JStr "cat")].

(** The runtime on ASCII text and on integers below 2^53, where folding
    the 26 letters and printing the decimal digits is what the language
    does.  The sample inputs hold nothing else. *)
Definition runtime : Runtime :=
  {| toLowerCase := ascii_toLowerCase;
     toLowerCase_twice := ascii_toLowerCase_twice;
     Number_toString := decimal |}.

End Sample.

(** ** Vocabulary of the further properties *)

Section vocabulary.
Context {rt : Runtime}.

(** The own properties of a [req.query] whose values are all strings, in
    enumeration order. *)
Definition string_params (ps : list (string * string)) : list (string * js) :=
  map (λ p, (fst p, JStr (snd p))) ps.

Definition digit (c : ascii) : bool :=
  let n := N_of_ascii c in ((48 <=? n) && (n <=? 57))%N.

Fixpoint digits (s : string) : bool :=
  match s with
  | EmptyString => true
  | String c s' => digit c && digits s'
  end.

(** A canonical numeric string: the digits of a natural number, without
    a leading zero.  An object enumerates the properties so named first
    and in numeric order, wherever they were added. *)
Definition canonical_numeric (s : string) : bool :=
  match s with
  | EmptyString => false
  | String c s' => digits s && (negb (Ascii.eqb c "0") || String.eqb s' "")
  end.

(** A list that is the enumeration of an object in the order its
    properties were added: no name twice (a repeated parameter becomes
    one property holding an array) and no canonical numeric name. *)
Definition as_added (ps : list (string * string)) : Prop :=
  NoDup (map fst ps) ∧ Forall (λ p, canonical_numeric (fst p) = false) ps.

(** The value of a hexadecimal digit. *)
Definition unhex (c : ascii) : option N :=
  let n := N_of_ascii c in
  if ((48 <=? n) && (n <=? 57))%N then Some (n - 48)%N
  else if ((97 <=? n) && (n <=? 102))%N then Some (n - 87)%N
  else None.

(** The character a two-character escape stands for, from its second
    character. *)
Definition unescape (e : ascii) : option ascii :=
  let n := N_of_ascii e in
  if (n =? 34)%N then Some e
  else if (n =? 92)%N then Some e
  else if (n =? 98)%N then Some (ascii_of_N 8)
  else if (n =? 116)%N then Some (ascii_of_N 9)
  else if (n =? 110)%N then Some (ascii_of_N 10)
  else if (n =? 102)%N then Some (ascii_of_N 12)
  else if (n =? 114)%N then Some (ascii_of_N 13)
  else None.

(** Reading a JSON string back, from after its opening quote: the
    characters up to the closing quote, and the text after it. *)
Fixpoint read_string (s : string) : option (string * string) :=
  match s with
  | EmptyString => None
  | String c s' =>
      if (N_of_ascii c =? 34)%N then Some (EmptyString, s')
      else if (N_of_ascii c =? 92)%N then
        match s' with
        | EmptyString => None
        | String e s'' =>
            if (N_of_ascii e =? 117)%N then
              match s'' with
              | String _ (String _ (String h (String l rest))) =>
                  match unhex h, unhex l, read_string rest with
                  | Some a, Some b, Some (t, r) =>
                      Some (String (ascii_of_N (16 * a + b)) t, r)
                  | _, _, _ => None
                  end
              | _ => None
              end
            else
              match unescape e, read_string s'' with
              | Some ch, Some (t, r) => Some (String ch t, r)
              | _, _ => None
              end
        end
      else
        match read_string s' with
        | Some (t, r) => Some (String c t, r)
        | None => None
        end
  end.

(** The text of an object of string parameters after its first member:
    the other members, each after its comma, and the closing brace. *)
Fixpoint rest_text (ps : list (string * string)) : string :=
  match ps with
  | [] => "}"
  | p :: ps' => "," ++ quote (fst p) ++ ":" ++ quote (snd p) ++ rest_text ps'
  end.

(** An object with exactly [title], [link] and [snippet], in that order. *)
Definition result_shape (x : js) : Prop :=
  ∃ t l s, x = JObj [("title", t); ("link", l); ("snippet", s)].

(** The line of an item in the headlines (server.js line 83), on an item
    as rss-parser builds it. *)
Definition headline (i : item) : string :=
  "- " ++ ToString (match title i with Some s => JStr s | None => JUndef end)
  ++ " (" ++ ToString (match link i with Some s => JStr s | None => JUndef end) ++ ")".

(** Every feed of the list has a usable entry that lives at least until
    the given time. *)
Definition warm (feeds : list Aggregate.FeedSource) (until : Z) (c : gmap string (entry js))
    : Prop :=
  ∀ feed, feed ∈ feeds →
    ∃ e, c !! ("rss:" ++ Aggregate.url feed) = Some e
         ∧ until ≤ expiry e ∧ truthy (data e) = true.

(** The state with another passthrough map, and with another TTL cache. *)
Definition with_passthrough (x : gmap string js) (w : world) : world :=
  World (cache w) x (now w) (calls w).

Definition with_cache (c : gmap string (entry js)) (w : world) : world :=
  World c (wikiNodeCache w) (now w) (calls w).

(** A computation that neither reads nor writes the passthrough map. *)
Definition apart {A} (m : M world A) : Prop :=
  ∀ w x, m (with_passthrough x w) = (fst (m w), with_passthrough x (snd (m w))).

(** A computation that issues at most [n] upstream calls, forgets none
    and never turns the clock back. *)
Definition spends {A} (n : nat) (m : M world A) : Prop :=
  ∀ w, ∃ new, calls (snd (m w)) = (new ++ calls w)%list
              ∧ (List.length new ≤ n)%nat
              ∧ now w ≤ now (snd (m w)).

(** More sample inputs. *)
End vocabulary.

Module More.

(** The encyclopedia knows no such page. *)
Definition no_page : js :=
  JObj [("batchcomplete", JStr EmptyString);
        ("query", JObj [("pages", JObj [("-1", JObj [("ns", JNum 0);
                                                      ("title", JStr "Zzyzx");
                                                      ("missing", JStr EmptyString)])])])].

Definition wiki_missing : network :=
  {| axios_wikipedia := λ _ _, (Resolved no_page, 90%N);
     parser_parseURL := λ _ _, (Resolved Sample.feed, 80%N);
     axios_search := λ _ _, (Resolved Sample.hits, 200%N);
     fetch_gemini := λ _ _ _ _, (FetchRejected, 30%N) |}.

(** The encyclopedia does not answer in time. *)
Definition wiki_timeout : network :=
  {| axios_wikipedia := λ _ _, (Rejected Sample.timed_out, 15000%N);
     parser_parseURL := λ _ _, (Resolved Sample.feed, 80%N);
     axios_search := λ _ _, (Resolved Sample.hits, 200%N);
     fetch_gemini := λ _ _ _ _, (FetchRejected, 30%N) |}.

(** The feeds answer with no item. *)
Definition quiet_feed : network :=
  {| axios_wikipedia := λ _ _, (Resolved Sample.page, 120%N);
     parser_parseURL := λ _ _, (Resolved {| items := [] |}, 80%N);
     axios_search := λ _ _, (Resolved Sample.hits, 200%N);
     fetch_gemini := λ _ _ _ _, (FetchRejected, 30%N) |}.

(** The feeds cannot be fetched. *)
Definition feed_down : network :=
  {| axios_wikipedia := λ _ _, (Resolved Sample.page, 120%N);
     parser_parseURL := λ _ _, (Rejected Sample.timed_out, 60000%N);
     axios_search := λ _ _, (Resolved Sample.hits, 200%N);
     fetch_gemini := λ _ _ _ _, (FetchRejected, 30%N) |}.

Definition other_source : Aggregate.FeedSource :=
  {| Aggregate.name := None; Aggregate.url := "https://blog.example/feed" |}.


End More.

(** * Properties *)

(** ** Running computations *)

Section properties.
Context {rt : Runtime}.

Lemma run_bind {S A B} (m : M S A) (k : A → M S B) (s : S) :
  bind m k s = k (fst (m s)) (snd (m s)).
Proof. unfold bind. by destruct (m s). Qed.

Lemma run_ret {S A} (a : A) (s : S) : ret a s = (a, s).
Proof. done. Qed.

Lemma world_eta (w : world) : World (cache w) (wikiNodeCache w) (now w) (calls w) = w.
Proof. by destruct w. Qed.

(** ** The TTL cache *)

Lemma duration_pos (TTL : list (string * Z)) (type : string) :
  source_table TTL → 0 < duration TTL type.
Proof.
  intros [-> | ->]; unfold duration, TTL_streaming, TTL_aggregate, assoc;
    repeat (destruct (String.eqb type _)); simpl; lia.
Qed.

Lemma duration_rss : duration TTL_aggregate "rss" = 600000.
Proof. reflexivity. Qed.

Lemma getCache_absent {V} (key : string) (t : Z) (c : gmap string (entry V)) :
  c !! key = None → getCache key t c = (None, c).
Proof.
  intros H. unfold getCache. rewrite H. by rewrite delete_id.
Qed.

Lemma getCache_live {V} (key : string) (t : Z) (c : gmap string (entry V)) (e : entry V) :
  c !! key = Some e → t < expiry e → getCache key t c = (Some (data e), c).
Proof.
  intros H Ht. unfold getCache. rewrite H.
  rewrite bool_decide_eq_true_2; [done | lia].
Qed.

Lemma getCache_expired {V} (key : string) (t : Z) (c : gmap string (entry V)) (e : entry V) :
  c !! key = Some e → expiry e ≤ t → getCache key t c = (None, delete key c).
Proof.
  intros H Ht. unfold getCache. rewrite H.
  rewrite bool_decide_eq_false_2; [done | lia].
Qed.

(** C3.  In either deployment's table, for every key, value and category:
    [getCache] at the time of the [setCache] returns the value and leaves
    the entry in place; and at any time at which the category's duration
    has elapsed since the [setCache], [getCache] returns [null] and has
    deleted the entry from the map. *)
Theorem get_after_set {V} (TTL : list (string * Z)) (key : string) (v : V)
    (type : string) (t t' : Z) (c : gmap string (entry V)) :
  source_table TTL →
  let stored := setCache TTL key v type t c in
  getCache key t stored = (Some v, stored)
  ∧ (t + duration TTL type ≤ t' →
     fst (getCache key t' stored) = None
     ∧ snd (getCache key t' stored) = delete key stored
     ∧ snd (getCache key t' stored) !! key = None).
Proof.
  intros Htab stored.
  pose proof (duration_pos TTL type Htab) as Hpos.
  assert (Hin : stored !! key = Some (Entry v (t + duration TTL type)))
    by apply lookup_insert_eq.
  split.
  - rewrite (getCache_live key t stored _ Hin); [done | simpl; lia].
  - intros Hlate.
    rewrite (getCache_expired key t' stored _ Hin); [| simpl; lia].
    simpl. split_and!; [done | done | apply lookup_delete_eq].
Qed.

End properties.

Section examples.
#[local] Existing Instance Sample.runtime.

Lemma get_after_set_witness :
  source_table TTL_aggregate
  ∧ getCache "rss:u" 1000 (setCache TTL_aggregate "rss:u" (JStr "x") "rss" 1000 ∅)
    = (Some (JStr "x"), setCache TTL_aggregate "rss:u" (JStr "x") "rss" 1000 ∅)
  ∧ fst (getCache "rss:u" 601000 (setCache TTL_aggregate "rss:u" (JStr "x") "rss" 1000 ∅))
    = None.
Proof.
  split; [by right |].
  destruct (get_after_set TTL_aggregate "rss:u" (JStr "x") "rss" 1000 601000 ∅
              (or_intror eq_refl)) as [Hnow Hlate].
  split; [exact Hnow |]. apply Hlate. rewrite duration_rss. lia.
Defined.

End examples.

(** ** Missing prompt *)

Section properties.
Context {rt : Runtime}.

(** C7.  When the body has no [prompt] property, both [/generate]
    handlers answer status 400 with [{ error: 'Missing prompt' }] and
    leave the process state as it was: no adapter has looked at the cache
    and no upstream call has been issued. *)
Theorem missing_prompt_rejected (net : network) (feeds : list string)
    (key1 key2 : option string) (rssFeeds : list Aggregate.FeedSource)
    (body : list (string * js)) (w : world) :
  assoc "prompt" body = None →
  Streaming.generate net feeds key1 key2 body w
    = (Json 400 (JObj [("error", JStr "Missing prompt")]), w)
  ∧ Aggregate.generate net rssFeeds body w
    = (Json 400 (JObj [("error", JStr "Missing prompt")]), w).
Proof.
  intros H. unfold Streaming.generate, Aggregate.generate. rewrite H. done.
Qed.

End properties.

Section examples.
#[local] Existing Instance Sample.runtime.

Lemma missing_prompt_rejected_witness :
  assoc "prompt" [("query", JStr "cat")] = None
  ∧ calls (snd (Aggregate.generate Sample.up [Sample.source] [("query", JStr "cat")]
                                   Sample.start)) = [].
Proof.
  split; [reflexivity |].
  by rewrite (proj2 (missing_prompt_rejected Sample.up [] None None [Sample.source]
                       [("query", JStr "cat")] Sample.start eq_refl)).
Defined.

End examples.

(** ** The feed adapter *)

Section properties.
Context {rt : Runtime}.

Lemma articles_nonempty (prompt parsedFeed : js) (arts : list js) :
  Aggregate.articles_of prompt parsedFeed = Some arts → arts ≠ [].
Proof.
  unfold Aggregate.articles_of.
  destruct (prop parsedFeed "items") as [its |]; [| done]. simpl.
  destruct its; try done.
  destruct (Aggregate.filter_items prompt xs) as [kept |]; [| done]. simpl.
  destruct kept as [| k kept]; simpl.
  - by intros [= <-].
  - destruct (Aggregate.format_item k); simpl; [| done].
    destruct (mapM Aggregate.format_item (take 4 kept)); simpl; [| done].
    by intros [= <-].
Qed.

Lemma feed_step_run (net : network) (prompt : js) (feed : Aggregate.FeedSource) (w : world) :
  Aggregate.feed_step net prompt feed w =
  match fst (Aggregate.obtain net feed w) with
  | Resolved parsedFeed =>
      match Aggregate.articles_of prompt parsedFeed with
      | Some articles =>
          (Aggregate.formatted feed articles,
           snd (setCacheM TTL_aggregate ("rss:" ++ Aggregate.url feed) parsedFeed "rss"
                          (snd (Aggregate.obtain net feed w))))
      | None => (Aggregate.feed_failed feed, snd (Aggregate.obtain net feed w))
      end
  | Rejected _ => (Aggregate.feed_failed feed, snd (Aggregate.obtain net feed w))
  end.
Proof.
  unfold Aggregate.feed_step. rewrite run_bind.
  destruct (fst (Aggregate.obtain net feed w)); [| done].
  by destruct (Aggregate.articles_of prompt a).
Qed.

(** C8.  Whenever the feed was obtained, from the cache or from upstream,
    and the filter keeps none of its items, the entry returned for the
    feed carries exactly one article, the placeholder whose title quotes
    the prompt; and an entry that carries articles never carries an empty
    list. *)
Theorem no_match_placeholder (net : network) (feed : Aggregate.FeedSource)
    (prompt : js) (w : world) :
  (∀ parsedFeed xs,
     fst (Aggregate.obtain net feed w) = Resolved parsedFeed →
     prop parsedFeed "items" = Some (JArr xs) →
     Aggregate.filter_items prompt xs = Some [] →
     fst (Aggregate.feed_step net prompt feed w)
       = Aggregate.formatted feed
           [JObj [("title", JStr ("No matching articles found for " ++ dquote
                                  ++ ToString prompt ++ dquote))]])
  ∧ (∀ arts,
       fst (Aggregate.feed_step net prompt feed w) = Aggregate.formatted feed arts →
       arts ≠ []).
Proof.
  split.
  - intros parsedFeed xs Hget Hitems Hnone.
    rewrite feed_step_run, Hget. unfold Aggregate.articles_of.
    rewrite Hitems. simpl. rewrite Hnone. done.
  - intros arts. rewrite feed_step_run.
    destruct (fst (Aggregate.obtain net feed w)) as [parsedFeed | e]; [| done].
    destruct (Aggregate.articles_of prompt parsedFeed) as [a |] eqn:Ha; [| done].
    simpl. intros [= <-]. by eapply articles_nonempty.
Qed.

End properties.

Section examples.
#[local] Existing Instance Sample.runtime.

Lemma no_match_placeholder_witness :
  fst (Aggregate.feed_step Sample.up (JStr "zebra") Sample.source Sample.start)
  = Aggregate.formatted Sample.source
      [JObj [("title", JStr ("No matching articles found for " ++ dquote ++ "zebra" ++ dquote))]].
Proof.
  apply (proj1 (no_match_placeholder Sample.up Sample.source (JStr "zebra") Sample.start)
               (js_of_feed Sample.feed) (map js_of_item (items Sample.feed)));
    reflexivity.
Defined.

End examples.

(** *** Parsed feeds: the source's filter against its description *)

Section properties.
Context {rt : Runtime}.

Lemma field_matches_title (q : string) (i : item) :
  Aggregate.field_matches (JStr q) "title" (js_of_item i)
  = Some (Described.has_text q (title i)).
Proof.
  destruct i as [[t |] [s |] [c |] [l |]]; cbn;
    try destruct (String.eqb t ""); done.
Qed.

Lemma field_matches_snippet (q : string) (i : item) :
  Aggregate.field_matches (JStr q) "contentSnippet" (js_of_item i)
  = Some (Described.has_text q (contentSnippet i)).
Proof.
  destruct i as [[t |] [s |] [c |] [l |]]; cbn;
    try destruct (String.eqb s ""); done.
Qed.

Lemma item_matches_typed (q : string) (i : item) :
  Aggregate.item_matches (JStr q) (js_of_item i) = Some (Described.matches q i).
Proof.
  unfold Aggregate.item_matches, Described.matches.
  rewrite field_matches_title, field_matches_snippet.
  by destruct (Described.has_text q (title i)).
Qed.

Lemma filter_items_typed (q : string) (its : list item) :
  Aggregate.filter_items (JStr q) (map js_of_item its)
  = Some (map js_of_item (List.filter (Described.matches q) its)).
Proof.
  induction its as [| i its IH]; [done |].
  cbn [map Aggregate.filter_items List.filter].
  rewrite item_matches_typed, IH. cbn.
  by destruct (Described.matches q i).
Qed.

Lemma format_item_typed (i : item) :
  Aggregate.format_item (js_of_item i) = Some (Described.article i).
Proof.
  destruct i as [[t |] [s |] [c |] [l |]]; cbn;
    unfold js_or, Described.article, Described.or_text; cbn;
    repeat match goal with
           | |- context [String.eqb ?x ""] =>
               let E := fresh in
               destruct (String.eqb x "") eqn:E; cbn; rewrite ?E; cbn
           end; done.
Qed.

Lemma format_items_typed (its : list item) :
  mapM Aggregate.format_item (map js_of_item its) = Some (map Described.article its).
Proof.
  induction its as [| i its IH]; [done |].
  cbn [map mapM]. rewrite format_item_typed. cbn. rewrite IH. done.
Qed.

(** On a feed as rss-parser builds it and a string prompt, the source's
    [articles] are the described ones, and nothing is thrown. *)
Lemma articles_of_typed (q : string) (f : parsedFeed) :
  Aggregate.articles_of (JStr q) (js_of_feed f) = Some (Described.filtered q f).
Proof.
  unfold Aggregate.articles_of, Described.filtered. cbn.
  rewrite filter_items_typed. cbn.
  destruct (List.filter (Described.matches q) (items f)) as [| k kept]; [done |].
  cbn [map List.length Nat.eqb].
  change (js_of_item k :: map js_of_item kept) with (map js_of_item (k :: kept)).
  rewrite firstn_map. apply format_items_typed.
Qed.

(** *** One cached raw feed, filtered per request *)


Lemma obtain_hit (net : network) (feed : Aggregate.FeedSource) (w : world) (e : entry js) :
  cache w !! ("rss:" ++ Aggregate.url feed) = Some e →
  now w < expiry e →
  truthy (data e) = true →
  Aggregate.obtain net feed w = (Resolved (data e), w).
Proof.
  intros Hin Hlive Htrue. unfold Aggregate.obtain. rewrite run_bind.
  unfold getCacheM. rewrite (getCache_live _ _ _ _ Hin Hlive). cbn.
  rewrite Htrue, world_eta. done.
Qed.

Lemma obtain_effect (net : network) (feed : Aggregate.FeedSource) (w : world) :
  let w' := snd (Aggregate.obtain net feed w) in
  now w ≤ now w'
  ∧ wikiNodeCache w' = wikiNodeCache w
  ∧ (calls w' = calls w ∨ calls w' = ParseURL (Aggregate.url feed) :: calls w).
Proof.
  unfold Aggregate.obtain. rewrite run_bind. unfold getCacheM.
  destruct (getCache _ (now w) (cache w)) as [r c]. cbn.
  destruct (truthy (default JNull r)); cbn.
  - split_and!; [lia | done | by left].
  - unfold parseURL, await. cbn.
    destruct (parser_parseURL net (now w) (Aggregate.url feed)) as [o ms]. cbn.
    split_and!; [lia | done | by right].
Qed.



End properties.

Section examples.
#[local] Existing Instance Sample.runtime.



End examples.

(** *** Every successful request renews the entry *)

Section properties.
Context {rt : Runtime}.

Lemma feed_step_hit (net : network) (feed : Aggregate.FeedSource) (q : string)
    (f : parsedFeed) (w : world) (e : entry js) :
  cache w !! ("rss:" ++ Aggregate.url feed) = Some e →
  now w < expiry e →
  data e = js_of_feed f →
  Aggregate.feed_step net (JStr q) feed w
  = (Aggregate.formatted feed (Described.filtered q f),
     World (<[("rss:" ++ Aggregate.url feed) := Entry (js_of_feed f) (now w + 600000)]> (cache w))
           (wikiNodeCache w) (now w) (calls w)).
Proof.
  intros Hin Hlive Hdata.
  rewrite feed_step_run, (obtain_hit net feed w e Hin Hlive); [| by rewrite Hdata].
  cbn [fst snd]. rewrite Hdata, articles_of_typed. done.
Qed.

Lemma reads_renew (net : network) (feed : Aggregate.FeedSource) (f : parsedFeed)
    (rs : list (Z * string)) :
  Forall (λ r, fst r < 600000) rs →
  ∀ (w : world) (e : entry js),
    cache w !! ("rss:" ++ Aggregate.url feed) = Some e →
    data e = js_of_feed f →
    now w + 600000 ≤ expiry e →
    fst (reads net feed rs w)
      = map (λ r, Aggregate.formatted feed (Described.filtered (snd r) f)) rs
    ∧ calls (snd (reads net feed rs w)) = calls w
    ∧ ∃ e', cache (snd (reads net feed rs w)) !! ("rss:" ++ Aggregate.url feed) = Some e'
            ∧ data e' = js_of_feed f
            ∧ now (snd (reads net feed rs w)) + 600000 ≤ expiry e'.
Proof.
  induction 1 as [| [gap q] rs Hgap _ IH]; intros w e Hin Hdata Hfresh.
  - cbn. split_and!; [done | done |]. by exists e.
  - unfold reads in *. cbn [for_each]. rewrite run_bind.
    cbn [fst snd] in *.
    rewrite (feed_step_hit net feed q f (later gap w) e Hin); [| cbn; lia | done].
    cbn [fst snd]. rewrite run_bind.
    match goal with
    | |- context [for_each ?b rs ?w1] =>
        destruct (IH w1 (Entry (js_of_feed f) (now w + gap + 600000)))
          as (Hres & Hcalls & Hentry)
    end.
    + cbn. apply lookup_insert_eq.
    + done.
    + cbn. lia.
    + cbn [fst snd ret]. rewrite Hres. split_and!; [done | by rewrite Hcalls | done].
Qed.

(** C10.  A request that returns articles for a feed, whether it fetched
    the feed or took it from the cache, leaves under the feed's key the
    feed it worked from, with expiry the time of that write plus 600000
    ms; when the feed came from a live entry, no upstream call is issued
    and only the expiry changes.  Consequently, over any run of requests
    in which each one comes less than 600000 ms after the one before,
    starting from an entry at least that fresh, no request ever issues an
    upstream call and all are answered from the same parsed feed. *)
Theorem read_renews_expiry (net : network) (feed : Aggregate.FeedSource) :
  (∀ (prompt : js) (w : world) (arts : list js),
     fst (Aggregate.feed_step net prompt feed w) = Aggregate.formatted feed arts →
     ∃ raw,
       fst (Aggregate.obtain net feed w) = Resolved raw
       ∧ cache (snd (Aggregate.feed_step net prompt feed w)) !! ("rss:" ++ Aggregate.url feed)
         = Some (Entry raw (now (snd (Aggregate.feed_step net prompt feed w)) + 600000)))
  ∧ (∀ (prompt : js) (w : world) (e : entry js) (arts : list js),
       cache w !! ("rss:" ++ Aggregate.url feed) = Some e →
       now w < expiry e →
       truthy (data e) = true →
       Aggregate.articles_of prompt (data e) = Some arts →
       Aggregate.feed_step net prompt feed w
       = (Aggregate.formatted feed arts,
          World (<[("rss:" ++ Aggregate.url feed) := Entry (data e) (now w + 600000)]> (cache w))
                (wikiNodeCache w) (now w) (calls w)))
  ∧ (∀ (f : parsedFeed) (rs : list (Z * string)) (w : world) (e : entry js),
       Forall (λ r, fst r < 600000) rs →
       cache w !! ("rss:" ++ Aggregate.url feed) = Some e →
       data e = js_of_feed f →
       now w + 600000 ≤ expiry e →
       calls (snd (reads net feed rs w)) = calls w
       ∧ fst (reads net feed rs w)
         = map (λ r, Aggregate.formatted feed (Described.filtered (snd r) f)) rs).
Proof.
  split_and!.
  - intros prompt w arts. rewrite feed_step_run.
    destruct (fst (Aggregate.obtain net feed w)) as [raw | err]; [| done].
    destruct (Aggregate.articles_of prompt raw) as [a |]; [| done].
    cbn. intros _. exists raw. split; [done |].
    unfold setCache. rewrite lookup_insert_eq. by rewrite duration_rss.
  - intros prompt w e arts Hin Hlive Htrue Harts.
    rewrite feed_step_run, (obtain_hit net feed w e Hin Hlive Htrue).
    cbn [fst snd]. rewrite Harts. done.
  - intros f rs w e Hgaps Hin Hdata Hfresh.
    destruct (reads_renew net feed f rs Hgaps w e Hin Hdata Hfresh) as (Hres & Hcalls & _).
    done.
Qed.

End properties.

Section examples.
#[local] Existing Instance Sample.runtime.

Lemma read_renews_expiry_witness :
  calls (snd (reads Sample.up Sample.source [(599999, "dog"); (599999, "cat"); (599999, "")]
                (snd (Aggregate.feed_step Sample.up (JStr "cat") Sample.source Sample.start))))
  = [ParseURL "https://news.example/rss"].
Proof.
  refine (proj1 (proj2 (proj2 (read_renews_expiry Sample.up Sample.source))
                   Sample.feed [(599999, "dog"); (599999, "cat"); (599999, "")]
                   (snd (Aggregate.feed_step Sample.up (JStr "cat") Sample.source Sample.start))
                   (Entry (js_of_feed Sample.feed) 601080) _ _ _ _)).
  - repeat constructor.
  - vm_compute. reflexivity.
  - reflexivity.
  - vm_compute. discriminate.
Defined.

End examples.

(** ** Failures are not cached *)

Section properties.
Context {rt : Runtime}.

Lemma getCache_cases {V} (key : string) (t : Z) (c : gmap string (entry V)) :
  snd (getCache key t c) = c
  ∨ (snd (getCache key t c) = delete key c ∧ ∃ e, c !! key = Some e ∧ expiry e ≤ t).
Proof.
  unfold getCache. destruct (c !! key) as [e |] eqn:Hin.
  - case_bool_decide; cbn; [by left | right]. split; [done |]. exists e. split; [done | lia].
  - left. cbn. by apply delete_id.
Qed.

(** A lookup adds and alters nothing. *)
Lemma getCache_shrinks {V} (key : string) (t : Z) (c : gmap string (entry V)) :
  snd (getCache key t c) ⊆ c.
Proof.
  destruct (getCache_cases key t c) as [-> | [-> _]]; [done | apply delete_subseteq].
Qed.

(** The one entry a lookup can remove is an expired one under its key. *)
Lemma getCache_evicts {V} (key : string) (t : Z) (c : gmap string (entry V)) :
  ∀ k e, c !! k = Some e → snd (getCache key t c) !! k = None → k = key ∧ expiry e ≤ t.
Proof.
  intros k e Hin. destruct (getCache_cases key t c) as [-> | [-> (e' & Hin' & Hexp)]].
  - congruence.
  - destruct (decide (k = key)) as [-> | Hne].
    + intros _. split; [done |]. congruence.
    + rewrite lookup_delete_ne; [congruence | done].
Qed.

(** What a lookup at a later time reads is the same whether or not an
    earlier lookup has run. *)
Lemma getCache_after_lookup {V} (key : string) (t0 t : Z) (c : gmap string (entry V)) :
  t0 ≤ t → fst (getCache key t (snd (getCache key t0 c))) = fst (getCache key t c).
Proof.
  intros Hle. destruct (getCache_cases key t0 c) as [-> | [-> (e & Hin & Hexp)]]; [done |].
  rewrite (getCache_expired key t c e Hin); [| lia].
  rewrite getCache_absent; [done | apply lookup_delete_eq].
Qed.

(** A lookup that finds nothing usable finds nothing usable later. *)
Lemma miss_stays (key : string) (t0 t : Z) (c : gmap string (entry js)) :
  t0 ≤ t →
  truthy (default JNull (fst (getCache key t0 c))) = false →
  truthy (default JNull (fst (getCache key t c))) = false.
Proof.
  intros Hle. unfold getCache. destruct (c !! key) as [e |]; [| done].
  repeat case_bool_decide; cbn; try done. lia.
Qed.

Lemma getCacheM_run (key : string) (w : world) :
  getCacheM key w
  = (default JNull (fst (getCache key (now w) (cache w))),
     World (snd (getCache key (now w) (cache w))) (wikiNodeCache w) (now w) (calls w)).
Proof. unfold getCacheM. by destruct (getCache key (now w) (cache w)). Qed.

(** The summary adapter of the streaming deployment, on a lookup that
    finds nothing usable. *)
Lemma fetchWikipedia_miss (net : network) (query : js) (w : world) :
  truthy (default JNull (fst (getCache ("wiki:" ++ ToString query) (now w) (cache w)))) = false →
  calls (snd (Streaming.fetchWikipedia net query w))
    = GetWikipedia (Streaming.summary_params query) :: calls w
  ∧ (Streaming.try_summary
       (fst (axios_wikipedia net (now w) (Streaming.summary_params query))) = None →
     fst (Streaming.fetchWikipedia net query w) = JStr "Error fetching Wikipedia."
     ∧ cache (snd (Streaming.fetchWikipedia net query w))
       = snd (getCache ("wiki:" ++ ToString query) (now w) (cache w))
     ∧ now w ≤ now (snd (Streaming.fetchWikipedia net query w))).
Proof.
  intros Hmiss. unfold Streaming.fetchWikipedia.
  rewrite run_bind, getCacheM_run. cbn [fst snd]. rewrite Hmiss.
  rewrite run_bind. unfold get_wikipedia, await. cbn [now cache calls wikiNodeCache].
  destruct (axios_wikipedia net (now w) (Streaming.summary_params query)) as [r ms].
  cbn [fst snd]. split.
  - by destruct (Streaming.try_summary r).
  - intros ->. cbn. split_and!; [done | done | lia].
Qed.

(** The search adapter, on a lookup that finds nothing usable. *)
Lemma fetchDuckDuckGo_miss (net : network) (query : js) (w : world) :
  truthy (default JNull (fst (getCache ("ddg:" ++ ToString query) (now w) (cache w)))) = false →
  calls (snd (Aggregate.fetchDuckDuckGo net query w)) = GetSearch query :: calls w
  ∧ (Aggregate.try_results (fst (axios_search net (now w) query)) = None →
     fst (Aggregate.fetchDuckDuckGo net query w) = Aggregate.search_failed
     ∧ cache (snd (Aggregate.fetchDuckDuckGo net query w))
       = snd (getCache ("ddg:" ++ ToString query) (now w) (cache w))
     ∧ now w ≤ now (snd (Aggregate.fetchDuckDuckGo net query w))).
Proof.
  intros Hmiss. unfold Aggregate.fetchDuckDuckGo.
  rewrite run_bind, getCacheM_run. cbn [fst snd]. rewrite Hmiss.
  rewrite run_bind. unfold Aggregate.get_search, await. cbn [now cache calls wikiNodeCache].
  destruct (axios_search net (now w) query) as [r ms].
  cbn [fst snd]. split.
  - by destruct (Aggregate.try_results r).
  - intros ->. cbn. split_and!; [done | done | lia].
Qed.

(** C9.  When the summary adapter (streaming deployment) or the search
    adapter looks up its key, finds nothing usable and then fails
    upstream (the request is rejected, or the [try] block throws on what
    came back), it returns its placeholder and writes nothing: every
    entry of the cache afterwards is an entry from before, unaltered, and
    the one entry that can be gone is an entry under the key that had
    already expired, which the lookup itself evicts and which no reader
    could see any more; a lookup of the key at any later time reads what
    it would have read without the call; and a later call for the same
    query issues the upstream request again. *)
Theorem failure_not_cached (net : network) (query : js) (w : world) :
  (let key := "wiki:" ++ ToString query in
   let after := Streaming.fetchWikipedia net query w in
   truthy (default JNull (fst (getCache key (now w) (cache w)))) = false →
   Streaming.try_summary
     (fst (axios_wikipedia net (now w) (Streaming.summary_params query))) = None →
   fst after = JStr "Error fetching Wikipedia."
   ∧ cache (snd after) ⊆ cache w
   ∧ (∀ k e, cache w !! k = Some e → cache (snd after) !! k = None →
        k = key ∧ expiry e ≤ now w)
   ∧ (∀ t, now w ≤ t →
        fst (getCache key t (cache (snd after))) = fst (getCache key t (cache w)))
   ∧ (∀ t, now (snd after) ≤ t →
        calls (snd (Streaming.fetchWikipedia net query (at_time t (snd after))))
        = GetWikipedia (Streaming.summary_params query) :: calls (snd after)))
  ∧ (let key := "ddg:" ++ ToString query in
     let after := Aggregate.fetchDuckDuckGo net query w in
     truthy (default JNull (fst (getCache key (now w) (cache w)))) = false →
     Aggregate.try_results (fst (axios_search net (now w) query)) = None →
     fst after = Aggregate.search_failed
     ∧ cache (snd after) ⊆ cache w
     ∧ (∀ k e, cache w !! k = Some e → cache (snd after) !! k = None →
          k = key ∧ expiry e ≤ now w)
     ∧ (∀ t, now w ≤ t →
          fst (getCache key t (cache (snd after))) = fst (getCache key t (cache w)))
     ∧ (∀ t, now (snd after) ≤ t →
          calls (snd (Aggregate.fetchDuckDuckGo net query (at_time t (snd after))))
          = GetSearch query :: calls (snd after))).
Proof.
  split.
  - intros key after Hmiss Hfail.
    destruct (fetchWikipedia_miss net query w Hmiss) as [_ H].
    destruct (H Hfail) as (Hres & Hcache & Hnow). fold after in Hres, Hcache, Hnow.
    split_and!.
    + done.
    + rewrite Hcache. apply getCache_shrinks.
    + rewrite Hcache. apply getCache_evicts.
    + intros t Ht. rewrite Hcache. by apply getCache_after_lookup.
    + intros t Ht.
      refine (proj1 (fetchWikipedia_miss net query (at_time t (snd after)) _)).
      cbn [now cache at_time].
      rewrite Hcache, getCache_after_lookup; [| lia].
      apply (miss_stays _ (now w)); [lia | done].
  - intros key after Hmiss Hfail.
    destruct (fetchDuckDuckGo_miss net query w Hmiss) as [_ H].
    destruct (H Hfail) as (Hres & Hcache & Hnow). fold after in Hres, Hcache, Hnow.
    split_and!.
    + done.
    + rewrite Hcache. apply getCache_shrinks.
    + rewrite Hcache. apply getCache_evicts.
    + intros t Ht. rewrite Hcache. by apply getCache_after_lookup.
    + intros t Ht.
      refine (proj1 (fetchDuckDuckGo_miss net query (at_time t (snd after)) _)).
      cbn [now cache at_time].
      rewrite Hcache, getCache_after_lookup; [| lia].
      apply (miss_stays _ (now w)); [lia | done].
Qed.

End properties.

Section examples.
#[local] Existing Instance Sample.runtime.

Lemma failure_not_cached_witness :
  cache (snd (Streaming.fetchWikipedia Sample.wiki_down (JStr "cat") Sample.start)) !! "wiki:cat"
    = None
  ∧ fst (Aggregate.fetchDuckDuckGo Sample.search_down (JStr "cat") Sample.start)
    = Aggregate.search_failed.
Proof.
  split.
  - destruct (proj1 (failure_not_cached Sample.wiki_down (JStr "cat") Sample.start)
                    eq_refl eq_refl) as (_ & Hsub & _).
    destruct (cache _ !! "wiki:cat") as [e |] eqn:Hin; [| done].
    by apply (lookup_weaken _ _ _ _ Hin) in Hsub.
  - exact (proj1 (proj2 (failure_not_cached Sample.search_down (JStr "cat") Sample.start)
                        eq_refl eq_refl)).
Defined.

End examples.

(** ** Running the aggregation endpoint *)

Section properties.
Context {rt : Runtime}.

(** The summary adapter of the JSON deployment, on a lookup that finds
    nothing usable. *)
Lemma summary_miss (net : network) (query : js) (w : world) :
  truthy (default JNull (fst (getCache ("wiki:" ++ ToString query) (now w) (cache w)))) = false →
  Aggregate.fetchWikipedia net query w
  = let r := axios_wikipedia net (now w) (Aggregate.summary_params query) in
    let c := snd (getCache ("wiki:" ++ ToString query) (now w) (cache w)) in
    let t := now w + Z.of_N (snd r) in
    let cs := GetWikipedia (Aggregate.summary_params query) :: calls w in
    match Aggregate.try_summary (fst r) with
    | Some extract =>
        (extract,
         World (setCache TTL_aggregate ("wiki:" ++ ToString query) extract "wiki" t c)
               (wikiNodeCache w) t cs)
    | None => (JStr "Error fetching Wikipedia.", World c (wikiNodeCache w) t cs)
    end.
Proof.
  intros Hmiss. unfold Aggregate.fetchWikipedia.
  rewrite run_bind, getCacheM_run. cbn [fst snd]. rewrite Hmiss.
  rewrite run_bind. unfold get_wikipedia, await. cbn [now cache calls wikiNodeCache].
  destruct (axios_wikipedia net (now w) (Aggregate.summary_params query)) as [r ms].
  cbn [fst snd]. by destruct (Aggregate.try_summary r).
Qed.


(** ** The passthrough endpoint *)

Lemma api_wikipedia_miss (net : network) (params : list (string * js)) (w : world) :
  truthy (default JUndef (wikiNodeCache w !! stringify_object params)) = false →
  api_wikipedia net params w
  = let r := axios_wikipedia net (now w) params in
    let t := now w + Z.of_N (snd r) in
    let cs := GetWikipedia params :: calls w in
    match fst r with
    | Resolved d =>
        (Json 200 d, World (cache w) (<[stringify_object params := d]> (wikiNodeCache w)) t cs)
    | Rejected err =>
        (Json 500 (JObj [("error", JStr (message err))]),
         World (cache w) (wikiNodeCache w) t cs)
    end.
Proof.
  intros Hmiss. unfold api_wikipedia. rewrite run_bind. cbn [wikiNodeCache_get fst snd].
  rewrite Hmiss, run_bind. unfold get_wikipedia, await.
  destruct (axios_wikipedia net (now w) params) as [[d | err] ms]; done.
Qed.

Lemma api_wikipedia_hit (net : network) (params : list (string * js)) (w : world) (d : js) :
  wikiNodeCache w !! stringify_object params = Some d →
  truthy d = true →
  api_wikipedia net params w = (Json 200 d, w).
Proof.
  intros Hin Htrue. unfold api_wikipedia. rewrite run_bind. cbn [wikiNodeCache_get fst snd].
  rewrite Hin. change (default JUndef (Some d)) with d. by rewrite Htrue.
Qed.

Lemma nodecache_miss (net : network) (params : list (string * js)) (s : NodeCacheProxy.state) :
  truthy (fst (NodeCacheProxy.cache_get (stringify_object params) s)) = false →
  NodeCacheProxy.api_wikipedia net params s
  = let s0 := snd (NodeCacheProxy.cache_get (stringify_object params) s) in
    let r := axios_wikipedia net (NodeCacheProxy.clock s0) params in
    let t := NodeCacheProxy.clock s0 + Z.of_N (snd r) in
    let cs := GetWikipedia params :: NodeCacheProxy.issued s0 in
    match fst r with
    | Resolved d =>
        (Json 200 d,
         NodeCacheProxy.State
           (<[stringify_object params := Entry d (t + 600 * 1000)]> (NodeCacheProxy.store s0))
           t cs)
    | Rejected err =>
        (NodeCacheProxy.on_error err, NodeCacheProxy.State (NodeCacheProxy.store s0) t cs)
    end.
Proof.
  intros Hmiss. unfold NodeCacheProxy.api_wikipedia. rewrite run_bind, Hmiss, run_bind.
  unfold NodeCacheProxy.get_wikipedia.
  destruct (axios_wikipedia net _ params) as [[d | err] ms]; done.
Qed.

Lemma nodecache_hit (net : network) (params : list (string * js)) (s : NodeCacheProxy.state)
    (e : entry js) :
  NodeCacheProxy.store s !! stringify_object params = Some e →
  NodeCacheProxy.clock s ≤ expiry e →
  truthy (data e) = true →
  NodeCacheProxy.api_wikipedia net params s = (Json 200 (data e), s).
Proof.
  intros Hin Hlive Htrue. unfold NodeCacheProxy.api_wikipedia. rewrite run_bind.
  unfold NodeCacheProxy.cache_get. rewrite Hin.
  rewrite bool_decide_eq_false_2; [| lia]. cbn [fst snd]. by rewrite Htrue.
Qed.

(** The node-cache deployment forwards the status and the body of an
    upstream answer that is not a success. *)
Lemma nodecache_forwards_status (err : error) (r : upstream_response) :
  isAxiosError err = true →
  code err ≠ "ECONNABORTED" →
  response err = Some r →
  NodeCacheProxy.on_error err
  = Json (r_status r)
         (JObj [("error", JStr ("Error fetching from Wikipedia API: " ++ r_statusText r));
                ("details", r_data r)]).
Proof.
  intros Hax Hcode Hresp. unfold NodeCacheProxy.on_error. rewrite Hax, Hresp.
  destruct (String.eqb_spec (code err) "ECONNABORTED"); done.
Qed.

End properties.

Section examples.
#[local] Existing Instance Sample.runtime.

(** C6.  The [/api/wikipedia] handler over the [Map] (lines 191-212), on
    a request the encyclopedia answers with status 404 and an error body:
    the handler answers status 500 with only the message of the error;
    neither the status 404 nor the upstream body reaches the caller.  The
    node-cache deployment answers the same upstream reply with status 404
    and the upstream body under [details]. *)
Theorem passthrough_masks_status :
  fst (api_wikipedia Sample.wiki_down [("action", JStr "query"); ("titles", JStr "Cat")]
                     Sample.start)
  = Json 500 (JObj [("error", JStr "Request failed with status code 404")])
  ∧ fst (NodeCacheProxy.api_wikipedia Sample.wiki_down
           [("action", JStr "query"); ("titles", JStr "Cat")]
           (NodeCacheProxy.State ∅ 1000 []))
    = Json 404 (JObj [("error", JStr "Error fetching from Wikipedia API: Not Found");
                      ("details", JObj [("error", JStr "no such page")])]).
Proof. split; reflexivity. Qed.

End examples.

Section properties.
Context {rt : Runtime}.

(** Whatever the rejection, the handler over the [Map] answers 500. *)
Lemma passthrough_always_500 (net : network) (params : list (string * js)) (w : world)
    (err : error) :
  truthy (default JUndef (wikiNodeCache w !! stringify_object params)) = false →
  fst (axios_wikipedia net (now w) params) = Rejected err →
  fst (api_wikipedia net params w) = Json 500 (JObj [("error", JStr (message err))]).
Proof.
  intros Hmiss Hrej. rewrite (api_wikipedia_miss net params w Hmiss). cbn zeta.
  by rewrite Hrej.
Qed.

(** C1, as the source has it.  Two requests that list the same parameters
    in the same order derive the same key.  When the first finds nothing
    usable under that key and its upstream call resolves with a truthy
    body, it answers that body and stores it; the second request, at any
    later time for the [Map] and at any time up to 600000 ms after the
    store for node-cache, answers the same body from that entry, issues no
    upstream call and leaves the state as it was. *)
Theorem same_order_hits_cache (net : network) (params : list (string * js)) (d : js) :
  truthy d = true →
  (∀ w : world,
     truthy (default JUndef (wikiNodeCache w !! stringify_object params)) = false →
     fst (axios_wikipedia net (now w) params) = Resolved d →
     let first := api_wikipedia net params w in
     fst first = Json 200 d
     ∧ calls (snd first) = GetWikipedia params :: calls w
     ∧ ∀ t, api_wikipedia net params (at_time t (snd first))
            = (Json 200 d, at_time t (snd first)))
  ∧ (∀ s : NodeCacheProxy.state,
       truthy (fst (NodeCacheProxy.cache_get (stringify_object params) s)) = false →
       fst (axios_wikipedia net (NodeCacheProxy.clock s) params) = Resolved d →
       let first := NodeCacheProxy.api_wikipedia net params s in
       fst first = Json 200 d
       ∧ NodeCacheProxy.issued (snd first) = GetWikipedia params :: NodeCacheProxy.issued s
       ∧ ∀ t, t ≤ NodeCacheProxy.clock (snd first) + 600000 →
              NodeCacheProxy.api_wikipedia net params (NodeCacheProxy.at_clock t (snd first))
              = (Json 200 d, NodeCacheProxy.at_clock t (snd first))).
Proof.
  intros Htrue. split.
  - intros w Hmiss Hup first. unfold first.
    rewrite (api_wikipedia_miss net params w Hmiss). cbn zeta. rewrite Hup.
    cbn [fst snd calls]. split_and!; [done | done |].
    intros t. apply api_wikipedia_hit; [| done]. cbn. apply lookup_insert_eq.
  - intros s Hmiss Hup first. unfold first.
    rewrite (nodecache_miss net params s Hmiss). cbn zeta.
    assert (Hs0 : NodeCacheProxy.clock (snd (NodeCacheProxy.cache_get (stringify_object params) s))
                  = NodeCacheProxy.clock s
                  ∧ NodeCacheProxy.issued (snd (NodeCacheProxy.cache_get (stringify_object params) s))
                    = NodeCacheProxy.issued s).
    { unfold NodeCacheProxy.cache_get.
      destruct (NodeCacheProxy.store s !! stringify_object params); [| done].
      by case_bool_decide. }
    destruct Hs0 as [Hclock Hissued]. rewrite Hclock, Hissued, Hup.
    cbn [fst snd NodeCacheProxy.issued NodeCacheProxy.clock]. split_and!; [done | done |].
    intros t Ht.
    eapply (nodecache_hit net params _ (Entry d _)); cbn; [apply lookup_insert_eq | | done].
    cbn. lia.
Qed.

End properties.

Section examples.
#[local] Existing Instance Sample.runtime.

Lemma same_order_hits_cache_witness :
  calls (snd (api_wikipedia Sample.up [("action", JStr "query"); ("titles", JStr "Cat")]
                (at_time 9999999
                   (snd (api_wikipedia Sample.up
                           [("action", JStr "query"); ("titles", JStr "Cat")] Sample.start)))))
  = [GetWikipedia [("action", JStr "query"); ("titles", JStr "Cat")]].
Proof.
  destruct (proj1 (same_order_hits_cache Sample.up
                     [("action", JStr "query"); ("titles", JStr "Cat")] Sample.page eq_refl)
                  Sample.start eq_refl eq_refl) as (_ & Hcalls & Hagain).
  rewrite (Hagain 9999999). exact Hcalls.
Defined.

(** C1 as stated fails.  The parameters [action=query&titles=Cat] and
    [titles=Cat&action=query] hold the same name-to-value pairs, yet they
    derive different keys, and the second request, made right after the
    first, goes upstream again, over the [Map] and over node-cache alike.
    And with one and the same key, a stored body that is falsy (an empty
    upstream body) is not served: the second request goes upstream again. *)
Lemma key_depends_on_order :
  let p1 := [("action", JStr "query"); ("titles", JStr "Cat")] in
  let p2 := [("titles", JStr "Cat"); ("action", JStr "query")] in
  Permutation p1 p2
  ∧ stringify_object p1 ≠ stringify_object p2
  ∧ calls (snd (api_wikipedia Sample.up p2 (snd (api_wikipedia Sample.up p1 Sample.start))))
    = [GetWikipedia p2; GetWikipedia p1]
  ∧ NodeCacheProxy.issued
      (snd (NodeCacheProxy.api_wikipedia Sample.up p2
              (snd (NodeCacheProxy.api_wikipedia Sample.up p1 (NodeCacheProxy.State ∅ 1000 [])))))
    = [GetWikipedia p2; GetWikipedia p1]
  ∧ calls (snd (api_wikipedia Sample.wiki_empty p1
                  (snd (api_wikipedia Sample.wiki_empty p1 Sample.start))))
    = [GetWikipedia p1; GetWikipedia p1].
Proof.
  cbn zeta. split_and!.
  - apply perm_swap.
  - vm_compute. discriminate.
  - vm_compute. reflexivity.
  - vm_compute. reflexivity.
  - vm_compute. reflexivity.
Qed.

End examples.

(** ** The generative-text fallback *)

Section properties.
Context {rt : Runtime}.

Lemma requests_app (text : string) (cs1 cs2 : list (string * string)) :
  Described.requests text (cs1 ++ cs2)
  = (Described.requests text cs2 ++ Described.requests text cs1)%list.
Proof. unfold Described.requests. by rewrite map_app, rev_app_distr. Qed.

(** The inner loop never takes [break outer]: whatever the models
    answer, it posts to each of them, writes nothing and leaves the caches
    alone. *)
Lemma try_models_run (net : network) (key text : string) (ms : list string) :
  ∀ (written : list string) (w : world),
    let r := Streaming.try_models net key text ms written w in
    fst r = (written, false)
    ∧ calls (snd r)
      = (Described.requests text (map (λ model, (key, model)) ms) ++ calls w)%list
    ∧ cache (snd r) = cache w
    ∧ wikiNodeCache (snd r) = wikiNodeCache w
    ∧ now w ≤ now (snd r).
Proof.
  induction ms as [| model ms IH]; intros written w.
  - cbn zeta. unfold ret. cbn [fst snd]. split_and!; [done | done | done | done | reflexivity].
  - cbn [Streaming.try_models map]. rewrite run_bind.
    unfold Streaming.post_gemini, await.
    destruct (fetch_gemini net (now w) model key text) as [a lat]. cbn [fst snd].
    set (w' := World (cache w) (wikiNodeCache w) (now w + Z.of_N lat)
                     (PostGemini model key text :: calls w)).
    destruct (IH written w') as (Hout & Hcalls & Hcache & Hmap & Hnow).
    cbn zeta.
    match goal with
    | |- context [fst ?x = _] =>
        assert (Hx : x = Streaming.try_models net key text ms written w');
        [| rewrite Hx]
    end.
    { destruct a as [| [] st chunks complete]; [done | | done].
      cbn [negb]. by unfold Streaming.getReader. }
    split_and!; [done | | done | done |].
    + rewrite Hcalls. unfold w'. cbn [calls].
      change ((key, model) :: map (λ model0, (key, model0)) ms)
        with ([(key, model)] ++ map (λ model0, (key, model0)) ms)%list.
      rewrite requests_app. by rewrite <- app_assoc.
    + assert (Hw' : now w' = now w + Z.of_N lat) by done.
      pose proof (N2Z.is_nonneg lat). lia.
Qed.

(** Nor does the outer loop: every pair is posted to, keys outermost,
    and nothing is written. *)
Lemma try_keys_run (net : network) (text : string) (keys : list string) :
  ∀ (written : list string) (w : world),
    let r := Streaming.try_keys net text keys written w in
    fst r = (written, false)
    ∧ calls (snd r) = (Described.requests text (Described.combos keys) ++ calls w)%list
    ∧ cache (snd r) = cache w
    ∧ wikiNodeCache (snd r) = wikiNodeCache w
    ∧ now w ≤ now (snd r).
Proof.
  induction keys as [| key keys IH]; intros written w.
  - cbn zeta. unfold ret. cbn [fst snd]. split_and!; [done | done | done | done | reflexivity].
  - cbn [Streaming.try_keys]. rewrite run_bind.
    destruct (try_models_run net key text Streaming.models written w)
      as (Hout & Hcalls & Hcache & Hmap & Hnow).
    rewrite Hout. cbn [fst snd].
    destruct (IH written (snd (Streaming.try_models net key text Streaming.models written w)))
      as (Hout' & Hcalls' & Hcache' & Hmap' & Hnow').
    cbn zeta. split_and!; [done | | congruence | congruence | lia].
    rewrite Hcalls', Hcalls. unfold Described.combos. cbn [flat_map].
    fold (Described.combos keys). rewrite requests_app. by rewrite <- app_assoc.
Qed.

Lemma streaming_generate_run (net : network) (feeds : list string) (key1 key2 : option string)
    (body : list (string * js)) (prompt : js) (w : world) :
  assoc "prompt" body = Some prompt →
  truthy prompt = true →
  ToString_throws prompt = false →
  Streaming.generate net feeds key1 key2 body w
  = let wiki := Streaming.fetchWikipedia net prompt w in
    let rss := Streaming.fetchRSS_all net feeds (snd wiki) in
    let text := Streaming.finalPrompt prompt (fst wiki) (Streaming.rss_text feeds (fst rss)) in
    if existsb ToString_throws (fst rss) || ToString_throws (fst wiki)
    then (Streaming.conversion_failed, snd rss)
    else if (List.length (Streaming.geminiKeys key1 key2) =? 0)%nat
    then (Json 500 (JObj [("error", JStr "No Gemini API keys provided")]), snd rss)
    else
      let r := Streaming.try_keys net text (Streaming.geminiKeys key1 key2) [] (snd rss) in
      (Text 200 (if snd (fst r) then fst (fst r)
                 else (fst (fst r) ++ [Streaming.all_failed])%list),
       snd r).
Proof.
  intros Hbody Htrue Hconv. unfold Streaming.generate. rewrite Hbody.
  change (default JUndef (Some prompt)) with prompt.
  rewrite Htrue, Hconv. cbn [negb]. rewrite !run_bind.
  destruct (existsb ToString_throws _ || ToString_throws _); [done |].
  destruct (List.length (Streaming.geminiKeys key1 key2) =? 0)%nat; [done |].
  by rewrite run_bind.
Qed.

(** C4, against the source.  [fetch] is node-fetch, whose response body
    has no [getReader]: on every response that is [ok] line 167 throws
    inside the [try], before anything is read or written.  So with a
    truthy prompt and a credential configured, whatever the generative
    API answers, the caller receives either the status 500 of the outer
    [catch] (a template literal threw) or status 200 with the marker as
    the whole body, and every (credential, model) pair has been posted
    to, credentials outermost.  No combination counts as a success, none
    stops the iteration, and no chunk of any answer reaches the caller. *)
Theorem ok_response_never_relayed (net : network) (feeds : list string)
    (key1 key2 : option string) (body : list (string * js)) (prompt : js) (w : world) :
  assoc "prompt" body = Some prompt →
  truthy prompt = true →
  Streaming.geminiKeys key1 key2 ≠ [] →
  let r := Streaming.generate net feeds key1 key2 body w in
  fst r = Streaming.conversion_failed
  ∨ (fst r = Text 200 [Streaming.all_failed]
     ∧ ∃ text before,
         calls (snd r)
         = (Described.requests text (Described.combos (Streaming.geminiKeys key1 key2))
            ++ before)%list).
Proof.
  intros Hbody Htrue Hkeys r. unfold r.
  destruct (ToString_throws prompt) eqn:Hconv.
  { left. unfold Streaming.generate. rewrite Hbody.
    change (default JUndef (Some prompt)) with prompt. by rewrite Htrue, Hconv. }
  rewrite (streaming_generate_run net feeds key1 key2 body prompt w Hbody Htrue Hconv).
  cbn zeta.
  destruct (existsb ToString_throws _ || ToString_throws _); [by left |].
  destruct (Nat.eqb_spec (List.length (Streaming.geminiKeys key1 key2)) 0) as [Hz | _].
  { by apply length_zero_iff_nil in Hz. }
  right.
  match goal with
  | |- context [Streaming.try_keys net ?text ?keys [] ?w1] =>
      destruct (try_keys_run net text keys [] w1) as (Hout & Hcalls & _);
      cbn zeta in Hout, Hcalls; rewrite Hout; cbn [fst snd];
      split; [done | exists text, (calls w1); exact Hcalls]
  end.
Qed.

End properties.

Section examples.
#[local] Existing Instance Sample.runtime.

(** The sample upstream answers every post with status 200 and two
    chunks.  The caller of the source receives the marker, after four
    posts; iteration as described stops at the first pair and relays the
    two chunks. *)
Lemma ok_response_never_relayed_witness :
  fst (Streaming.generate Sample.up [] (Some "key-1") (Some "key-2") Sample.ask Sample.start)
  = Text 200 ["Error: All Gemini models and API keys failed."]
  ∧ (∀ text t,
       let made := Described.attempts Sample.up text (Described.combos ["key-1"; "key-2"]) t in
       map Described.pair_of made = [("key-1", "gemini-2.0-flash")]
       ∧ Described.output made = ["Cats "; "are mammals."]).
Proof.
  split; [| intros text t; split; reflexivity].
  destruct (ok_response_never_relayed Sample.up [] (Some "key-1") (Some "key-2") Sample.ask
              (JStr "cat") Sample.start eq_refl eq_refl ltac:(discriminate))
    as [H | [H _]]; [| exact H].
  vm_compute in H. discriminate H.
Defined.

End examples.

(** * Further properties *)

(** ** The TTL cache across keys and writes *)

Section properties.
Context {rt : Runtime}.

(** X1.  Entries under different keys do not meet.  Writing one key changes
    nothing of what a lookup of another key returns; a lookup of one key,
    which may evict it, leaves the entry of every other key in place; and
    a lookup of another key never removes what was just written. *)
Theorem cache_keys_independent {V} (TTL : list (string * Z)) (key key' : string) (v : V)
    (type : string) (t0 t : Z) (c : gmap string (entry V)) :
  key ≠ key' →
  fst (getCache key' t (setCache TTL key v type t0 c)) = fst (getCache key' t c)
  ∧ snd (getCache key t c) !! key' = c !! key'
  ∧ snd (getCache key' t (setCache TTL key v type t0 c)) !! key
    = Some (Entry v (t0 + duration TTL type)).
Proof.
  intros Hne. split_and!.
  - unfold getCache, setCache. rewrite lookup_insert_ne; [| done].
    destruct (c !! key') as [e |]; [| done]. by case_bool_decide.
  - destruct (getCache_cases key t c) as [-> | [-> _]]; [done |].
    by rewrite lookup_delete_ne.
  - destruct (getCache_cases key' t (setCache TTL key v type t0 c)) as [-> | [-> _]].
    + apply lookup_insert_eq.
    + rewrite lookup_delete_ne; [| done]. apply lookup_insert_eq.
Qed.

End properties.

Section examples.
#[local] Existing Instance Sample.runtime.

Lemma cache_keys_independent_witness :
  fst (getCache "wiki:cat" 5 (setCache TTL_aggregate "rss:u" (JStr "x") "rss" 0
                                (setCache TTL_aggregate "wiki:cat" (JStr "y") "wiki" 0 ∅)))
  = Some (JStr "y").
Proof.
  rewrite (proj1 (cache_keys_independent TTL_aggregate "rss:u" "wiki:cat" (JStr "x") "rss" 0 5
                    (setCache TTL_aggregate "wiki:cat" (JStr "y") "wiki" 0 ∅)
                    ltac:(discriminate))).
  reflexivity.
Defined.

End examples.

Section properties.
Context {rt : Runtime}.

(** X2.  Two writes to one key leave what the second alone would leave: the
    later data with the later expiry, and nothing of the first.  A lookup
    then returns the later data at every time before that expiry; from
    that expiry on it returns [null] and has removed the entry. *)
Theorem last_write_decides {V} (TTL : list (string * Z)) (key : string) (v1 v2 : V)
    (type1 type2 : string) (t1 t2 t : Z) (c : gmap string (entry V)) :
  let twice := setCache TTL key v2 type2 t2 (setCache TTL key v1 type1 t1 c) in
  twice = setCache TTL key v2 type2 t2 c
  ∧ fst (getCache key t twice)
    = (if bool_decide (t < t2 + duration TTL type2) then Some v2 else None)
  ∧ snd (getCache key t twice)
    = (if bool_decide (t < t2 + duration TTL type2) then twice else delete key c).
Proof.
  intros twice.
  assert (Htw : twice = setCache TTL key v2 type2 t2 c) by apply insert_insert_eq.
  split; [done |]. rewrite Htw. unfold getCache, setCache. rewrite lookup_insert_eq. cbn.
  case_bool_decide; case_bool_decide; try lia; cbn; [done |].
  split; [done |]. apply delete_insert_eq.
Qed.

(** ** The summary and search adapters when they succeed *)

Lemma extract_truthy (d e : js) : extract_of d = Some e → truthy e = true.
Proof.
  unfold extract_of.
  destruct (prop d "query") as [q |]; [| done]. cbn.
  destruct (prop q "pages") as [pages |]; [| done]. cbn.
  destruct (first_page pages) as [page |]; [| done]. cbn.
  destruct (prop page "extract") as [x |]; [| done]. cbn.
  intros [= <-]. unfold js_or. by destruct (truthy x) eqn:Hx.
Qed.

Lemma results_truthy (d r : js) : Aggregate.format_results d = Some r → truthy r = true.
Proof.
  unfold Aggregate.format_results.
  destruct (js_or _ _); try done.
  destruct (mapM _ _); [| done]. by intros [= <-].
Qed.

Lemma summary_hit (net : network) (query : js) (w : world) (e : entry js) :
  cache w !! ("wiki:" ++ ToString query) = Some e →
  now w < expiry e →
  truthy (data e) = true →
  Aggregate.fetchWikipedia net query w = (data e, w).
Proof.
  intros Hin Hlive Htrue. unfold Aggregate.fetchWikipedia.
  rewrite run_bind, getCacheM_run, (getCache_live _ _ _ _ Hin Hlive). cbn [fst snd].
  change (default JNull (Some (data e))) with (data e).
  rewrite Htrue, world_eta. done.
Qed.

Lemma search_hit (net : network) (query : js) (w : world) (e : entry js) :
  cache w !! ("ddg:" ++ ToString query) = Some e →
  now w < expiry e →
  truthy (data e) = true →
  Aggregate.fetchDuckDuckGo net query w = (data e, w).
Proof.
  intros Hin Hlive Htrue. unfold Aggregate.fetchDuckDuckGo.
  rewrite run_bind, getCacheM_run, (getCache_live _ _ _ _ Hin Hlive). cbn [fst snd].
  change (default JNull (Some (data e))) with (data e).
  rewrite Htrue, world_eta. done.
Qed.

Lemma search_miss (net : network) (query : js) (w : world) :
  truthy (default JNull (fst (getCache ("ddg:" ++ ToString query) (now w) (cache w)))) = false →
  Aggregate.fetchDuckDuckGo net query w
  = let r := axios_search net (now w) query in
    let c := snd (getCache ("ddg:" ++ ToString query) (now w) (cache w)) in
    let t := now w + Z.of_N (snd r) in
    let cs := GetSearch query :: calls w in
    match Aggregate.try_results (fst r) with
    | Some results =>
        (results,
         World (setCache TTL_aggregate ("ddg:" ++ ToString query) results "ddg" t c)
               (wikiNodeCache w) t cs)
    | None => (Aggregate.search_failed, World c (wikiNodeCache w) t cs)
    end.
Proof.
  intros Hmiss. unfold Aggregate.fetchDuckDuckGo.
  rewrite run_bind, getCacheM_run. cbn [fst snd]. rewrite Hmiss.
  rewrite run_bind. unfold Aggregate.get_search, await. cbn [now cache calls wikiNodeCache].
  destruct (axios_search net (now w) query) as [r ms].
  cbn [fst snd]. by destruct (Aggregate.try_results r).
Qed.

Lemma summary_served (net : network) (query : js) (c : gmap string (entry js))
    (x : gmap string js) (cs : list call) (v : js) (t0 t : Z) :
  truthy v = true →
  t < t0 + 3600000 →
  Aggregate.fetchWikipedia net query
    (World (setCache TTL_aggregate ("wiki:" ++ ToString query) v "wiki" t0 c) x t cs)
  = (v, World (setCache TTL_aggregate ("wiki:" ++ ToString query) v "wiki" t0 c) x t cs).
Proof.
  intros Htrue Ht.
  apply (summary_hit net query _ (Entry v (t0 + 3600000))); [apply lookup_insert_eq | | done].
  cbn [now expiry]. lia.
Qed.

Lemma search_served (net : network) (query : js) (c : gmap string (entry js))
    (x : gmap string js) (cs : list call) (v : js) (t0 t : Z) :
  truthy v = true →
  t < t0 + 900000 →
  Aggregate.fetchDuckDuckGo net query
    (World (setCache TTL_aggregate ("ddg:" ++ ToString query) v "ddg" t0 c) x t cs)
  = (v, World (setCache TTL_aggregate ("ddg:" ++ ToString query) v "ddg" t0 c) x t cs).
Proof.
  intros Htrue Ht.
  apply (search_hit net query _ (Entry v (t0 + 900000))); [apply lookup_insert_eq | | done].
  cbn [now expiry]. lia.
Qed.

Lemma summary_miss_calls (net : network) (query : js) (w : world) :
  truthy (default JNull (fst (getCache ("wiki:" ++ ToString query) (now w) (cache w)))) = false →
  calls (snd (Aggregate.fetchWikipedia net query w))
  = GetWikipedia (Aggregate.summary_params query) :: calls w.
Proof.
  intros Hmiss. rewrite (summary_miss net query w Hmiss). cbn zeta.
  by destruct (Aggregate.try_summary _).
Qed.

(** X3.  The summary adapter of the JSON deployment, after a lookup that
    found nothing usable and an upstream answer the [try] block got
    through: it returns the extract and stores it with expiry 3600000 ms
    after the answer came; every call made before that expiry returns the
    same extract, issues no upstream call and leaves the state as it was;
    a call at that expiry or later goes upstream again. *)
Theorem summary_cached_one_hour (net : network) (query : js) (w : world) (extract : js) :
  truthy (default JNull (fst (getCache ("wiki:" ++ ToString query) (now w) (cache w)))) = false →
  Aggregate.try_summary (fst (axios_wikipedia net (now w) (Aggregate.summary_params query)))
    = Some extract →
  let first := Aggregate.fetchWikipedia net query w in
  fst first = extract
  ∧ cache (snd first) !! ("wiki:" ++ ToString query)
    = Some (Entry extract (now (snd first) + 3600000))
  ∧ (∀ t, t < now (snd first) + 3600000 →
       Aggregate.fetchWikipedia net query (at_time t (snd first))
       = (extract, at_time t (snd first)))
  ∧ (∀ t, now (snd first) + 3600000 ≤ t →
       calls (snd (Aggregate.fetchWikipedia net query (at_time t (snd first))))
       = GetWikipedia (Aggregate.summary_params query) :: calls (snd first)).
Proof.
  intros Hmiss Hok first. unfold first.
  rewrite (summary_miss net query w Hmiss). cbn zeta. rewrite Hok. cbn [fst snd now cache].
  assert (Htrue : truthy extract = true).
  { unfold Aggregate.try_summary in Hok.
    destruct (fst (axios_wikipedia net (now w) (Aggregate.summary_params query))); [| done].
    by eapply extract_truthy. }
  split_and!.
  - done.
  - unfold setCache. by rewrite lookup_insert_eq.
  - intros t Ht. by apply summary_served.
  - intros t Ht. rewrite summary_miss_calls; [done |].
    cbn [now cache at_time].
    erewrite getCache_expired; [done | apply lookup_insert_eq |].
    cbn [expiry]. change (duration TTL_aggregate "wiki") with 3600000. lia.
Qed.

End properties.

Section examples.
#[local] Existing Instance Sample.runtime.

Lemma summary_cached_one_hour_witness :
  Aggregate.fetchWikipedia Sample.up (JStr "cat")
    (at_time 3601119 (snd (Aggregate.fetchWikipedia Sample.up (JStr "cat") Sample.start)))
  = (JStr "The cat is a mammal.",
     at_time 3601119 (snd (Aggregate.fetchWikipedia Sample.up (JStr "cat") Sample.start))).
Proof.
  refine (proj1 (proj2 (proj2 (summary_cached_one_hour Sample.up (JStr "cat") Sample.start
                                 (JStr "The cat is a mammal.") eq_refl eq_refl))) 3601119 _).
  vm_compute. reflexivity.
Defined.

End examples.

Section properties.
Context {rt : Runtime}.

(** X4.  A page that has no extract is not a failure to the summary adapter:
    it returns ['No Wikipedia content found.'], stores that text under the
    query's key for the same 3600000 ms as an extract, and answers the
    calls made before that expiry with it without asking upstream. *)
Theorem missing_page_is_cached (net : network) (query : js) (w : world)
    (d q pages page e : js) :
  truthy (default JNull (fst (getCache ("wiki:" ++ ToString query) (now w) (cache w)))) = false →
  fst (axios_wikipedia net (now w) (Aggregate.summary_params query)) = Resolved d →
  prop d "query" = Some q →
  prop q "pages" = Some pages →
  first_page pages = Some page →
  prop page "extract" = Some e →
  truthy e = false →
  let first := Aggregate.fetchWikipedia net query w in
  fst first = JStr "No Wikipedia content found."
  ∧ cache (snd first) !! ("wiki:" ++ ToString query)
    = Some (Entry (JStr "No Wikipedia content found.") (now (snd first) + 3600000))
  ∧ (∀ t, t < now (snd first) + 3600000 →
       Aggregate.fetchWikipedia net query (at_time t (snd first))
       = (JStr "No Wikipedia content found.", at_time t (snd first))).
Proof.
  intros Hmiss Hr Hq Hpages Hpage He Hfalsy first. unfold first.
  rewrite (summary_miss net query w Hmiss). cbn zeta. rewrite Hr.
  unfold Aggregate.try_summary, extract_of.
  rewrite Hq. cbn. rewrite Hpages. cbn. rewrite Hpage. cbn. rewrite He. cbn.
  unfold js_or. rewrite Hfalsy. cbn [fst snd now cache]. split_and!.
  - done.
  - unfold setCache. by rewrite lookup_insert_eq.
  - intros t Ht. by apply summary_served.
Qed.

Lemma format_results_shape (d r : js) :
  Aggregate.format_results d = Some r →
  ∃ rs, r = JArr rs ∧ (List.length rs ≤ 10)%nat ∧ Forall result_shape rs.
Proof.
  unfold Aggregate.format_results.
  destruct (js_or _ _) as [| | | | | xs |]; try done.
  destruct (mapM _ (take 10 xs)) as [rs |] eqn:Hm; [| done].
  intros [= <-]. exists rs. split; [done |].
  split.
  - apply length_mapM in Hm. rewrite <- Hm, length_take. lia.
  - clear -Hm. revert rs Hm. generalize (take 10 xs) as l.
    induction l as [| x l IH]; intros rs.
    + by intros [= <-].
    + cbn. destruct (prop x "title") as [t |]; [| done]. cbn.
      destruct (prop x "link") as [k |]; [| done]. cbn.
      destruct (prop x "snippet") as [s |]; [| done]. cbn.
      destruct (mapM _ l) as [rs' |]; [| done]. cbn.
      intros [= <-]. constructor; [by exists t, k, s | by apply IH].
Qed.

(** X5.  Whatever the search API answers, the search adapter returns, on a
    lookup that found nothing usable, an array of at most 10 objects each
    holding exactly [title], [link] and [snippet] (the error placeholder
    is one such array of length 1); and an answer that is an object
    without [results] gives the empty array, not the placeholder. *)
Theorem search_results_shape (net : network) (query : js) (w : world) :
  truthy (default JNull (fst (getCache ("ddg:" ++ ToString query) (now w) (cache w)))) = false →
  (∃ rs, fst (Aggregate.fetchDuckDuckGo net query w) = JArr rs
         ∧ (List.length rs ≤ 10)%nat
         ∧ Forall result_shape rs)
  ∧ (∀ ps, fst (axios_search net (now w) query) = Resolved (JObj ps) →
           assoc "results" ps = None →
           fst (Aggregate.fetchDuckDuckGo net query w) = JArr []).
Proof.
  intros Hmiss. rewrite (search_miss net query w Hmiss). cbn zeta. split.
  - destruct (Aggregate.try_results _) as [r |] eqn:Hr; cbn [fst].
    + unfold Aggregate.try_results in Hr.
      destruct (fst (axios_search net (now w) query)); [| done].
      by apply format_results_shape in Hr.
    + exists [JObj [("title", JStr "Error fetching DuckDuckGo results");
                    ("link", JStr ""); ("snippet", JStr "")]].
      split; [done |]. split; [cbn; lia |]. constructor; [| constructor].
      by eexists _, _, _.
  - intros ps Hr Hnone. rewrite Hr. cbn. unfold Aggregate.format_results. cbn.
    rewrite Hnone. done.
Qed.

End properties.

Section examples.
#[local] Existing Instance Sample.runtime.

Lemma search_results_shape_witness :
  ∃ rs, fst (Aggregate.fetchDuckDuckGo Sample.up (JStr "cat") Sample.start) = JArr rs
        ∧ (List.length rs ≤ 10)%nat.
Proof.
  destruct (proj1 (search_results_shape Sample.up (JStr "cat") Sample.start eq_refl))
    as (rs & Hrs & Hlen & _).
  by exists rs.
Defined.

End examples.

Section properties.
Context {rt : Runtime}.

(** X6.  The search adapter, after a lookup that found nothing usable and an
    upstream answer the [try] block got through: it returns the formatted
    results and stores them with expiry 900000 ms after the answer came;
    every call made before that expiry returns them with no upstream call
    and no change of state; a call at that expiry or later goes upstream
    again. *)
Theorem search_cached_quarter_hour (net : network) (query : js) (w : world) (results : js) :
  truthy (default JNull (fst (getCache ("ddg:" ++ ToString query) (now w) (cache w)))) = false →
  Aggregate.try_results (fst (axios_search net (now w) query)) = Some results →
  let first := Aggregate.fetchDuckDuckGo net query w in
  fst first = results
  ∧ cache (snd first) !! ("ddg:" ++ ToString query)
    = Some (Entry results (now (snd first) + 900000))
  ∧ (∀ t, t < now (snd first) + 900000 →
       Aggregate.fetchDuckDuckGo net query (at_time t (snd first))
       = (results, at_time t (snd first)))
  ∧ (∀ t, now (snd first) + 900000 ≤ t →
       calls (snd (Aggregate.fetchDuckDuckGo net query (at_time t (snd first))))
       = GetSearch query :: calls (snd first)).
Proof.
  intros Hmiss Hok first. unfold first.
  rewrite (search_miss net query w Hmiss). cbn zeta. rewrite Hok. cbn [fst snd now cache].
  assert (Htrue : truthy results = true).
  { unfold Aggregate.try_results in Hok.
    destruct (fst (axios_search net (now w) query)); [| done].
    by eapply results_truthy. }
  split_and!.
  - done.
  - unfold setCache. by rewrite lookup_insert_eq.
  - intros t Ht. by apply search_served.
  - intros t Ht. refine (proj1 (fetchDuckDuckGo_miss net query (at_time t _) _)).
    cbn [now cache at_time].
    erewrite getCache_expired; [done | apply lookup_insert_eq |].
    cbn [expiry]. change (duration TTL_aggregate "ddg") with 900000. lia.
Qed.

End properties.

Section examples.
#[local] Existing Instance Sample.runtime.

Lemma search_cached_quarter_hour_witness :
  calls (snd (Aggregate.fetchDuckDuckGo Sample.up (JStr "cat")
                (at_time 901199 (snd (Aggregate.fetchDuckDuckGo Sample.up (JStr "cat")
                                        Sample.start)))))
  = [GetSearch (JStr "cat")].
Proof.
  rewrite (proj1 (proj2 (proj2 (search_cached_quarter_hour Sample.up (JStr "cat") Sample.start
                                  _ eq_refl eq_refl))) 901199); [reflexivity |].
  vm_compute. reflexivity.
Defined.

Lemma missing_page_is_cached_witness :
  Aggregate.fetchWikipedia More.wiki_missing (JStr "Zzyzx")
    (at_time 99999
       (snd (Aggregate.fetchWikipedia More.wiki_missing (JStr "Zzyzx") Sample.start)))
  = (JStr "No Wikipedia content found.",
     at_time 99999
       (snd (Aggregate.fetchWikipedia More.wiki_missing (JStr "Zzyzx") Sample.start))).
Proof.
  refine (proj2 (proj2 (missing_page_is_cached More.wiki_missing (JStr "Zzyzx") Sample.start
                          More.no_page
                          (JObj [("pages", JObj [("-1", JObj [("ns", JNum 0);
                                                              ("title", JStr "Zzyzx");
                                                              ("missing", JStr EmptyString)])])])
                          (JObj [("-1", JObj [("ns", JNum 0); ("title", JStr "Zzyzx");
                                              ("missing", JStr EmptyString)])])
                          (JObj [("ns", JNum 0); ("title", JStr "Zzyzx");
                                 ("missing", JStr EmptyString)])
                          JUndef eq_refl eq_refl eq_refl eq_refl eq_refl eq_refl eq_refl))
                99999 _).
  vm_compute. reflexivity.
Defined.

End examples.

(** ** The feed adapter over a list of feeds *)

Section properties.
Context {rt : Runtime}.

Lemma articles_at_most_five (prompt parsedFeed : js) (arts : list js) :
  Aggregate.articles_of prompt parsedFeed = Some arts → (List.length arts ≤ 5)%nat.
Proof.
  unfold Aggregate.articles_of.
  destruct (prop parsedFeed "items") as [its |]; [| done]. cbn.
  destruct its; try done.
  destruct (Aggregate.filter_items prompt xs) as [kept |]; [| done]. cbn.
  destruct (List.length kept =? 0)%nat.
  - intros [= <-]. cbn. lia.
  - intros Hm. apply length_mapM in Hm. rewrite <- Hm, length_take. lia.
Qed.

Lemma for_each_Forall2 {S A B} (body : A → M S B) (P : A → B → Prop) :
  (∀ x s, P x (fst (body x s))) →
  ∀ xs s, Forall2 P xs (fst (for_each body xs s)).
Proof.
  intros HP. induction xs as [| x xs IH]; intros s; [constructor |].
  cbn [for_each]. rewrite run_bind, run_bind. cbn. constructor; [apply HP | apply IH].
Qed.

(** X7.  [fetchRSSFeeds] returns one entry per feed of the list, in the order
    of the list: for each feed either the error entry of that feed, or an
    entry labelled with that feed that carries between 1 and 5 articles.
    A feed that fails takes nothing from the feeds around it. *)
Theorem one_entry_per_feed (net : network) (feeds : list Aggregate.FeedSource)
    (prompt : js) (w : world) :
  Forall2 (λ feed r,
             r = Aggregate.feed_failed feed
             ∨ ∃ arts, r = Aggregate.formatted feed arts
                       ∧ arts ≠ [] ∧ (List.length arts ≤ 5)%nat)
          feeds (fst (Aggregate.fetchRSSFeeds net feeds prompt w)).
Proof.
  apply for_each_Forall2. intros feed s. rewrite feed_step_run.
  destruct (fst (Aggregate.obtain net feed s)) as [raw | err]; [| by left].
  destruct (Aggregate.articles_of prompt raw) as [arts |] eqn:Ha; [| by left].
  right. exists arts. split; [done |]. split.
  - by eapply articles_nonempty.
  - by eapply articles_at_most_five.
Qed.

Lemma obtain_miss (net : network) (feed : Aggregate.FeedSource) (w : world) :
  truthy (default JNull (fst (getCache ("rss:" ++ Aggregate.url feed) (now w) (cache w))))
    = false →
  Aggregate.obtain net feed w
  = let r := parser_parseURL net (now w) (Aggregate.url feed) in
    (match fst r with
     | Resolved f => Resolved (js_of_feed f)
     | Rejected e => Rejected e
     end,
     World (snd (getCache ("rss:" ++ Aggregate.url feed) (now w) (cache w)))
           (wikiNodeCache w) (now w + Z.of_N (snd r))
           (ParseURL (Aggregate.url feed) :: calls w)).
Proof.
  intros Hmiss. unfold Aggregate.obtain. rewrite run_bind, getCacheM_run. cbn [fst snd].
  rewrite Hmiss. unfold parseURL, await. cbn [now cache calls wikiNodeCache].
  by destruct (parser_parseURL net (now w) (Aggregate.url feed)) as [[f | e] ms].
Qed.

(** X8.  A feed that had to be fetched and could not be served is not
    remembered.  Take an iteration of the loop whose lookup found nothing
    usable in the cache.  When the fetch is rejected, and also when the
    fetch succeeds but the filter throws on it, the iteration returns the
    error entry and stores nothing, not even the feed it fetched; and
    when such an iteration has returned the error entry, the next request
    for that feed, at any later time and with any prompt, fetches the
    feed again.  (An iteration that found the feed in the cache and
    failed in the filter leaves the entry where it is; it is not part of
    this statement.) *)
Theorem feed_failure_not_cached (net : network) (prompt : js) (feed : Aggregate.FeedSource)
    (w : world) :
  let key := "rss:" ++ Aggregate.url feed in
  let after := Aggregate.feed_step net prompt feed w in
  truthy (default JNull (fst (getCache key (now w) (cache w)))) = false →
  (∀ err, fst (parser_parseURL net (now w) (Aggregate.url feed)) = Rejected err →
     fst after = Aggregate.feed_failed feed
     ∧ cache (snd after) ⊆ cache w)
  ∧ (∀ f, fst (parser_parseURL net (now w) (Aggregate.url feed)) = Resolved f →
       Aggregate.articles_of prompt (js_of_feed f) = None →
       fst after = Aggregate.feed_failed feed
       ∧ cache (snd after) ⊆ cache w)
  ∧ (fst after = Aggregate.feed_failed feed →
     ∀ t prompt', now (snd after) ≤ t →
       calls (snd (Aggregate.feed_step net prompt' feed (at_time t (snd after))))
       = ParseURL (Aggregate.url feed) :: calls (snd after)).
Proof.
  intros key after Hmiss. unfold after. rewrite feed_step_run.
  rewrite (obtain_miss net feed w Hmiss). cbn zeta. cbn [fst snd].
  destruct (parser_parseURL net (now w) (Aggregate.url feed)) as [[f | e] ms] eqn:Hp;
    cbn [fst snd].
  - split_and!.
    + intros err [=].
    + intros f' [= <-] Hnone. rewrite Hnone. cbn [fst snd cache].
      split; [done | apply getCache_shrinks].
    + destruct (Aggregate.articles_of prompt (js_of_feed f)) as [arts |]; [done |].
      cbn [fst snd now calls cache]. intros _ t prompt' Ht.
      rewrite feed_step_run, obtain_miss.
      * cbn zeta. cbn [fst snd now calls at_time].
        destruct (fst (parser_parseURL net t (Aggregate.url feed))); [| done].
        by destruct (Aggregate.articles_of prompt' (js_of_feed _)).
      * cbn [now cache at_time]. rewrite getCache_after_lookup; [| lia].
        apply (miss_stays _ (now w)); [lia | done].
  - split_and!.
    + intros err _. cbn [fst snd cache]. split; [done | apply getCache_shrinks].
    + intros f [=].
    + cbn [fst snd now calls cache]. intros _ t prompt' Ht.
      rewrite feed_step_run, obtain_miss.
      * cbn zeta. cbn [fst snd now calls at_time].
        destruct (fst (parser_parseURL net t (Aggregate.url feed))); [| done].
        by destruct (Aggregate.articles_of prompt' (js_of_feed _)).
      * cbn [now cache at_time]. rewrite getCache_after_lookup; [| lia].
        apply (miss_stays _ (now w)); [lia | done].
Qed.

Lemma obtain_truthy (net : network) (feed : Aggregate.FeedSource) (w : world) (raw : js) :
  fst (Aggregate.obtain net feed w) = Resolved raw → truthy raw = true.
Proof.
  unfold Aggregate.obtain. rewrite run_bind, getCacheM_run. cbn [fst snd].
  destruct (truthy (default JNull _)) eqn:Hc.
  - by intros [= <-].
  - unfold parseURL, await. cbn [now].
    destruct (parser_parseURL net (now w) (Aggregate.url feed)) as [[f | e] ms]; cbn; [| done].
    by intros [= <-].
Qed.

Lemma obtain_cache_other (net : network) (feed : Aggregate.FeedSource) (w : world)
    (k : string) :
  k ≠ "rss:" ++ Aggregate.url feed →
  cache (snd (Aggregate.obtain net feed w)) !! k = cache w !! k.
Proof.
  intros Hk. unfold Aggregate.obtain. rewrite run_bind, getCacheM_run. cbn [fst snd].
  assert (Hc : snd (getCache ("rss:" ++ Aggregate.url feed) (now w) (cache w)) !! k
               = cache w !! k).
  { destruct (getCache_cases ("rss:" ++ Aggregate.url feed) (now w) (cache w))
      as [-> | [-> _]]; [done |]. by rewrite lookup_delete_ne. }
  destruct (truthy _); cbn; [done |].
  unfold parseURL, await. cbn.
  by destruct (parser_parseURL net (now w) (Aggregate.url feed)).
Qed.

Lemma feed_step_cache_other (net : network) (prompt : js) (feed : Aggregate.FeedSource)
    (w : world) (k : string) :
  k ≠ "rss:" ++ Aggregate.url feed →
  cache (snd (Aggregate.feed_step net prompt feed w)) !! k = cache w !! k.
Proof.
  intros Hk. rewrite feed_step_run.
  pose proof (obtain_cache_other net feed w k Hk) as Ho.
  destruct (fst (Aggregate.obtain net feed w)) as [raw | err]; [| done].
  destruct (Aggregate.articles_of prompt raw); [| done].
  cbn. unfold setCache. by rewrite lookup_insert_ne.
Qed.

Lemma feed_step_clock (net : network) (prompt : js) (feed : Aggregate.FeedSource) (w : world) :
  now w ≤ now (snd (Aggregate.feed_step net prompt feed w)).
Proof.
  rewrite feed_step_run. destruct (obtain_effect net feed w) as (Hnow & _).
  destruct (fst (Aggregate.obtain net feed w)) as [raw | err]; [| done].
  by destruct (Aggregate.articles_of prompt raw).
Qed.

Lemma rss_key_inj (u u' : string) : "rss:" ++ u = "rss:" ++ u' → u = u'.
Proof. intros H. by apply (inj (String.append "rss:")) in H. Qed.

Lemma feeds_warm_after (net : network) (prompt : js) (feeds : list Aggregate.FeedSource) :
  NoDup (map Aggregate.url feeds) →
  ∀ w,
    Forall (λ r, ∃ feed arts, r = Aggregate.formatted feed arts)
           (fst (Aggregate.fetchRSSFeeds net feeds prompt w)) →
    warm feeds (now w + 600000) (cache (snd (Aggregate.fetchRSSFeeds net feeds prompt w))).
Proof.
  unfold Aggregate.fetchRSSFeeds.
  induction feeds as [| f fs IH]; intros Hnd w Hok.
  - intros feed Hin. by apply elem_of_nil in Hin.
  - cbn [map] in Hnd. apply NoDup_cons in Hnd as [Hf Hnd].
    cbn [for_each] in *. rewrite run_bind, run_bind in *. cbn [fst snd ret] in *.
    apply Forall_cons in Hok as [Hfirst Hrest].
    set (w1 := snd (Aggregate.feed_step net prompt f w)) in *.
    pose proof (feed_step_clock net prompt f w) as Hclock. fold w1 in Hclock.
    intros feed Hin. apply elem_of_cons in Hin as [-> | Hin].
    + (* the entry written for [f] survives the rest of the run *)
      assert (Hkeep : ∀ fs' w',
                f.(Aggregate.url) ∉ map Aggregate.url fs' →
                cache (snd (for_each (Aggregate.feed_step net prompt) fs' w'))
                  !! ("rss:" ++ Aggregate.url f)
                = cache w' !! ("rss:" ++ Aggregate.url f)).
      { clear. induction fs' as [| g gs IHg]; intros w' Hnot; [done |].
        cbn [for_each]. rewrite run_bind, run_bind. cbn [fst snd ret].
        cbn [map] in Hnot. apply not_elem_of_cons in Hnot as [Hne Hnot].
        rewrite IHg; [| done]. apply feed_step_cache_other.
        intros H. apply rss_key_inj in H. done. }
      rewrite Hkeep; [| done]. unfold w1. rewrite feed_step_run.
      rewrite feed_step_run in Hfirst.
      destruct (fst (Aggregate.obtain net f w)) as [raw | err] eqn:Ho.
      * destruct (Aggregate.articles_of prompt raw) as [arts |].
        -- cbn. unfold setCache. rewrite lookup_insert_eq. eexists. split; [done |].
           cbn [expiry data]. change (duration TTL_aggregate "rss") with 600000.
           destruct (obtain_effect net f w) as (Hn & _).
           split; [lia | by eapply obtain_truthy].
        -- cbn in Hfirst. by destruct Hfirst as (? & ? & [=]).
      * cbn in Hfirst. by destruct Hfirst as (? & ? & [=]).
    + destruct (IH Hnd w1 Hrest feed Hin) as (e & He & Hexp & Htrue).
      exists e. split; [done |]. split; [lia | done].
Qed.

Lemma feeds_all_hit (net : network) (prompt : js) (feeds : list Aggregate.FeedSource) :
  ∀ w, warm feeds (now w + 1) (cache w) →
       calls (snd (Aggregate.fetchRSSFeeds net feeds prompt w)) = calls w
       ∧ now (snd (Aggregate.fetchRSSFeeds net feeds prompt w)) = now w.
Proof.
  unfold Aggregate.fetchRSSFeeds.
  induction feeds as [| f fs IH]; intros w Hwarm; [done |].
  cbn [for_each]. rewrite run_bind, run_bind. cbn [fst snd ret].
  destruct (Hwarm f) as (e & He & Hexp & Htrue); [apply elem_of_cons; by left |].
  assert (Hstep : calls (snd (Aggregate.feed_step net prompt f w)) = calls w
                  ∧ now (snd (Aggregate.feed_step net prompt f w)) = now w
                  ∧ warm fs (now w + 1) (cache (snd (Aggregate.feed_step net prompt f w)))).
  { rewrite feed_step_run, (obtain_hit net f w e He); [| lia | done]. cbn [fst snd].
    assert (Hfs : warm fs (now w + 1) (cache w)).
    { intros g Hg. apply Hwarm. apply elem_of_cons. by right. }
    destruct (Aggregate.articles_of prompt (data e)); cbn; [| done].
    split; [done |]. split; [done |].
    intros g Hg. destruct (decide ("rss:" ++ Aggregate.url g = "rss:" ++ Aggregate.url f))
      as [-> | Hne].
    - eexists. unfold setCache. rewrite lookup_insert_eq. split; [done |].
      cbn [expiry data]. change (duration TTL_aggregate "rss") with 600000.
      split; [lia | done].
    - unfold setCache. rewrite lookup_insert_ne; [| done]. by apply Hfs. }
  destruct Hstep as (Hcalls & Hnow & Hwarm').
  destruct (IH (snd (Aggregate.feed_step net prompt f w))) as [Hc Hn].
  { by rewrite Hnow. }
  by rewrite Hc, Hn.
Qed.

(** X9.  A run of [fetchRSSFeeds] over feeds with distinct urls in which no
    feed failed, such as a preload, warms the cache for all of them: any
    run over the same feeds that starts less than 600000 ms after the
    first one started, with any prompt, issues no upstream call and takes
    no time. *)
Theorem warm_feeds_need_no_fetch (net : network) (feeds : list Aggregate.FeedSource)
    (prompt prompt' : js) (w : world) (t : Z) :
  NoDup (map Aggregate.url feeds) →
  let first := Aggregate.fetchRSSFeeds net feeds prompt w in
  Forall (λ r, ∃ feed arts, r = Aggregate.formatted feed arts) (fst first) →
  t < now w + 600000 →
  calls (snd (Aggregate.fetchRSSFeeds net feeds prompt' (at_time t (snd first))))
  = calls (snd first)
  ∧ now (snd (Aggregate.fetchRSSFeeds net feeds prompt' (at_time t (snd first)))) = t.
Proof.
  intros Hnd first Hok Ht.
  apply (feeds_all_hit net prompt' feeds (at_time t (snd first))).
  intros feed Hin.
  destruct (feeds_warm_after net prompt feeds Hnd w Hok feed Hin) as (e & He & Hexp & Htrue).
  exists e. cbn [cache now at_time]. split; [done |]. split; [lia | done].
Qed.

End properties.

Section examples.
#[local] Existing Instance Sample.runtime.

Lemma feed_failure_not_cached_witness :
  fst (Aggregate.feed_step More.feed_down (JStr "cat") Sample.source Sample.start)
  = Aggregate.feed_failed Sample.source.
Proof.
  exact (proj1 (proj1 (feed_failure_not_cached More.feed_down (JStr "cat") Sample.source
                         Sample.start eq_refl)
                      Sample.timed_out eq_refl)).
Defined.

Lemma warm_feeds_need_no_fetch_witness :
  calls (snd (Aggregate.fetchRSSFeeds Sample.up [Sample.source; More.other_source] (JStr "cat")
                (at_time 500000
                   (snd (Aggregate.fetchRSSFeeds Sample.up [Sample.source; More.other_source]
                           (JStr EmptyString) Sample.start)))))
  = [ParseURL "https://blog.example/feed"; ParseURL "https://news.example/rss"].
Proof.
  refine (eq_trans
            (proj1 (warm_feeds_need_no_fetch Sample.up [Sample.source; More.other_source]
                      (JStr EmptyString) (JStr "cat") Sample.start 500000 _ _ _)) _).
  - apply NoDup_cons. split; [| apply NoDup_singleton].
    intros H. apply list_elem_of_singleton in H. discriminate H.
  - constructor; [exists Sample.source; eexists; reflexivity |].
    constructor; [exists More.other_source; eexists; reflexivity | constructor].
  - vm_compute. reflexivity.
  - reflexivity.
Defined.

End examples.

(** ** The headlines of the streaming deployment *)

Section properties.
Context {rt : Runtime}.

Lemma headlines_typed (f : parsedFeed) :
  Streaming.headlines_of (js_of_feed f)
  = Some (JStr (join Streaming.nl (map headline (take 5 (items f))))).
Proof.
  unfold Streaming.headlines_of.
  change (prop (js_of_feed f) "items") with (Some (JArr (map js_of_item (items f)))).
  cbn [mbind option_bind].
  assert (H : ∀ l, mapM (λ it, t ← prop it "title"; l0 ← prop it "link";
                               Some ("- " ++ ToString t ++ " (" ++ ToString l0 ++ ")"))
                        (map js_of_item l) = Some (map headline l)).
  { induction l as [| i l IH]; [done |]. cbn [map mapM].
    assert (Hi : (t ← prop (js_of_item i) "title"; l0 ← prop (js_of_item i) "link";
                  Some ("- " ++ ToString t ++ " (" ++ ToString l0 ++ ")"))
                 = Some (headline i)).
    { by destruct i as [[t |] [s |] [c |] [l0 |]]. }
    rewrite Hi. cbn. rewrite IH. done. }
  rewrite firstn_map, H. done.
Qed.

Lemma start_fetchRSS_miss (net : network) (url : string) (w : world) :
  truthy (default JNull (fst (getCache ("rss:" ++ url) (now w) (cache w)))) = false →
  Streaming.start_fetchRSS net url w
  = (Streaming.Pending url
       (match fst (parser_parseURL net (now w) url) with
        | Resolved f => Resolved (js_of_feed f)
        | Rejected e => Rejected e
        end)
       (snd (parser_parseURL net (now w) url)),
     World (snd (getCache ("rss:" ++ url) (now w) (cache w))) (wikiNodeCache w) (now w)
           (ParseURL url :: calls w)).
Proof.
  intros Hmiss. unfold Streaming.start_fetchRSS. rewrite run_bind, getCacheM_run.
  cbn [fst snd]. rewrite Hmiss. cbn [now cache calls wikiNodeCache].
  by destruct (parser_parseURL net (now w) url).
Qed.

Lemma start_fetchRSS_hit (net : network) (url : string) (w : world) (e : entry js) :
  cache w !! ("rss:" ++ url) = Some e →
  now w < expiry e →
  truthy (data e) = true →
  Streaming.start_fetchRSS net url w = (Streaming.Cached (data e), w).
Proof.
  intros Hin Hlive Htrue. unfold Streaming.start_fetchRSS.
  rewrite run_bind, getCacheM_run, (getCache_live _ _ _ _ Hin Hlive). cbn [fst snd].
  change (default JNull (Some (data e))) with (data e). by rewrite Htrue, world_eta.
Qed.

Lemma fetchRSS_miss (net : network) (url : string) (w : world) :
  truthy (default JNull (fst (getCache ("rss:" ++ url) (now w) (cache w)))) = false →
  Streaming.fetchRSS net url w
  = let r := parser_parseURL net (now w) url in
    let c := snd (getCache ("rss:" ++ url) (now w) (cache w)) in
    let t := now w + Z.of_N (snd r) in
    let cs := ParseURL url :: calls w in
    match fst r with
    | Resolved f =>
        (JStr (join Streaming.nl (map headline (take 5 (items f)))),
         World (setCache TTL_streaming ("rss:" ++ url)
                         (JStr (join Streaming.nl (map headline (take 5 (items f)))))
                         "rss" t c)
               (wikiNodeCache w) t cs)
    | Rejected _ => (JStr ("Error fetching RSS from " ++ url), World c (wikiNodeCache w) t cs)
    end.
Proof.
  intros Hmiss. unfold Streaming.fetchRSS, Streaming.fetchRSS_all.
  rewrite !run_bind. cbn [for_each]. rewrite !run_bind.
  rewrite (start_fetchRSS_miss net url w Hmiss). cbn [fst snd ret map omap].
  destruct (fst (parser_parseURL net (now w) url)) as [f | e].
  - cbn [Streaming.settled Streaming.write_back Streaming.latency list_omap].
    rewrite headlines_typed. cbn. rewrite N.max_0_r. done.
  - cbn. rewrite N.max_0_r. done.
Qed.

Lemma fetchRSS_hit (net : network) (url : string) (w : world) (e : entry js) :
  cache w !! ("rss:" ++ url) = Some e →
  now w < expiry e →
  truthy (data e) = true →
  Streaming.fetchRSS net url w = (data e, w).
Proof.
  intros Hin Hlive Htrue. unfold Streaming.fetchRSS, Streaming.fetchRSS_all.
  rewrite !run_bind. cbn [for_each]. rewrite !run_bind.
  rewrite (start_fetchRSS_hit net url w e Hin Hlive Htrue).
  cbn. rewrite Z.add_0_r, world_eta. done.
Qed.

(** X10.  [fetchRSS] of the streaming deployment caches the headlines it
    built, not the feed: after a lookup that found nothing usable and a
    successful fetch it returns one line per item for the first 5 items.
    When the feed has items, every call made less than 600000 ms after
    the fetch returns the same headlines with no upstream call.  When the
    feed has no item the headlines are the empty string, which is stored
    but never served: every later call fetches the feed again. *)
Theorem headlines_cache_edge (net : network) (url : string) (w : world) (f : parsedFeed) :
  truthy (default JNull (fst (getCache ("rss:" ++ url) (now w) (cache w)))) = false →
  fst (parser_parseURL net (now w) url) = Resolved f →
  let first := Streaming.fetchRSS net url w in
  fst first = JStr (join Streaming.nl (map headline (take 5 (items f))))
  ∧ (items f = [] →
     fst first = JStr ""
     ∧ ∀ t, calls (snd (Streaming.fetchRSS net url (at_time t (snd first))))
            = ParseURL url :: calls (snd first))
  ∧ (items f ≠ [] →
     ∀ t, t < now (snd first) + 600000 →
          Streaming.fetchRSS net url (at_time t (snd first)) = (fst first, at_time t (snd first))).
Proof.
  intros Hmiss Hf first. unfold first.
  rewrite (fetchRSS_miss net url w Hmiss). cbn zeta. rewrite Hf. cbn [fst snd].
  split_and!.
  - done.
  - intros Hnone. rewrite Hnone. split; [done |]. intros t.
    rewrite fetchRSS_miss.
    + cbn zeta. cbn [now calls at_time]. by destruct (fst (parser_parseURL net t url)).
    + cbn [now cache at_time]. unfold getCache, setCache. rewrite lookup_insert_eq. cbn.
      by case_bool_decide.
  - intros Hsome t Ht.
    apply (fetchRSS_hit net url _ (Entry _ (now w + Z.of_N (snd (parser_parseURL net (now w) url))
                                            + 600000))).
    + apply lookup_insert_eq.
    + cbn [now expiry at_time] in *. lia.
    + cbn [data]. destruct (items f) as [| i its]; [done |].
      change (take 5 (i :: its)) with (i :: take 4 its). cbn [map].
      unfold join, headline. cbn [concat].
      destruct (map _ (take 4 its)); done.
Qed.

End properties.

Section examples.
#[local] Existing Instance Sample.runtime.

Lemma headlines_cache_edge_witness :
  calls (snd (Streaming.fetchRSS More.quiet_feed "https://news.example/rss"
                (at_time 5000
                   (snd (Streaming.fetchRSS More.quiet_feed "https://news.example/rss"
                           Sample.start)))))
  = [ParseURL "https://news.example/rss"; ParseURL "https://news.example/rss"].
Proof.
  destruct (proj1 (proj2 (headlines_cache_edge More.quiet_feed "https://news.example/rss"
                            Sample.start {| items := [] |} eq_refl eq_refl))
                  eq_refl) as [_ Hagain].
  rewrite (Hagain 5000). reflexivity.
Defined.

End examples.

(** ** Trimming the extract *)

Section properties.
Context {rt : Runtime}.

Lemma split_nonempty (sep : ascii) (s : string) : ∃ h t, split sep s = h :: t.
Proof.
  destruct s as [| c s]; cbn; [by eexists _, _ |].
  destruct (Ascii.eqb c sep); [by eexists _, _ |].
  destruct (split sep s); by eexists _, _.
Qed.

Lemma join_cons_char (sep : string) (c : ascii) (h : string) (l : list string) :
  join sep (String c h :: l) = String c (join sep (h :: l)).
Proof. unfold join. by destruct l. Qed.

(** Joining the first [n] pieces gives the beginning of the string. *)
Lemma join_take_split (sep : ascii) (s : string) :
  ∀ n, ∃ rest, s = join (String sep "") (take n (split sep s)) ++ rest.
Proof.
  induction s as [| c s IH]; intros [| n].
  - exists "". reflexivity.
  - exists "". cbn [split take]. rewrite firstn_nil. reflexivity.
  - exists (String c s). reflexivity.
  - cbn [split]. destruct (Ascii.eqb_spec c sep) as [-> | Hne].
    + cbn [take]. destruct (IH n) as [rest Hrest].
      destruct (take n (split sep s)) as [| p l] eqn:Hl.
      * exists (String sep s). reflexivity.
      * exists rest. unfold join in *. cbn [concat].
        change (String sep s = String sep (concat (String sep "") (p :: l) ++ rest)).
        by rewrite <- Hrest.
    + destruct (split_nonempty sep s) as (h & t & Hs). rewrite Hs.
      destruct (IH (S n)) as [rest Hrest]. rewrite Hs in Hrest. cbn [take] in *.
      exists rest. rewrite join_cons_char.
      change (String c s = String c (join (String sep "") (h :: take n t) ++ rest)).
      by rewrite <- Hrest.
Qed.

(** Splitting what was joined from the first pieces gives those pieces. *)
Lemma split_join_take (sep : ascii) (s : string) :
  ∀ n, split sep (join (String sep "") (take (S n) (split sep s))) = take (S n) (split sep s).
Proof.
  induction s as [| c s IH]; intros n.
  { cbn [split take]. rewrite firstn_nil. reflexivity. }
  cbn [split]. destruct (Ascii.eqb_spec c sep) as [-> | Hne].
  - cbn [take]. destruct n as [| m]; [reflexivity |].
    destruct (split_nonempty sep s) as (h & t & Hs).
    specialize (IH m). rewrite Hs in *. cbn [take] in *.
    unfold join in *. cbn [concat].
    change (split sep (String sep (concat (String sep "") (h :: take m t)))
            = "" :: h :: take m t).
    cbn [split]. rewrite Ascii.eqb_refl. by rewrite IH.
  - destruct (split_nonempty sep s) as (h & t & Hs).
    specialize (IH n). rewrite Hs in *. cbn [take] in *.
    rewrite join_cons_char. cbn [split].
    destruct (Ascii.eqb_spec c sep) as [? | _]; [done |]. by rewrite IH.
Qed.

Lemma join_split (sep : ascii) (s : string) : join (String sep "") (split sep s) = s.
Proof.
  induction s as [| c s IH]; [reflexivity |].
  cbn [split]. destruct (split_nonempty sep s) as (h & t & Hs). rewrite Hs in *.
  destruct (Ascii.eqb_spec c sep) as [-> | Hne].
  - unfold join in *. cbn [concat].
    change (String sep (concat (String sep "") (h :: t)) = String sep s). by rewrite IH.
  - rewrite join_cons_char. by rewrite IH.
Qed.

(** X11.  The trimming of the extract in the streaming deployment (line 64):
    the trimmed text is a beginning of the extract, it has at most 5
    lines, an extract of at most 5 lines is kept whole, and trimming what
    was trimmed changes nothing. *)
Theorem trim_keeps_first_lines (s : string) :
  ∃ s',
    Streaming.trim (JStr s) = Some (JStr s')
    ∧ (∃ rest, s = s' ++ rest)
    ∧ (List.length (split newline s') ≤ 5)%nat
    ∧ ((List.length (split newline s) ≤ 5)%nat → s' = s)
    ∧ Streaming.trim (JStr s') = Some (JStr s').
Proof.
  exists (join Streaming.nl (take 5 (split newline s))).
  assert (Hsplit : split newline (join Streaming.nl (take 5 (split newline s)))
                   = take 5 (split newline s)) by apply split_join_take.
  split_and!.
  - done.
  - apply join_take_split.
  - rewrite Hsplit, length_take. lia.
  - intros Hle. rewrite firstn_all2; [apply join_split | done].
  - unfold Streaming.trim. rewrite Hsplit. do 3 f_equal.
    rewrite take_take. done.
Qed.

(** ** What a request may touch and spend *)

Lemma apart_ret {A} (a : A) : apart (ret a).
Proof. done. Qed.

Lemma apart_bind {A B} (m : M world A) (k : A → M world B) :
  apart m → (∀ a, apart (k a)) → apart (bind m k).
Proof.
  intros Hm Hk w x. rewrite !run_bind, Hm. cbn [fst snd]. by rewrite Hk.
Qed.

Lemma apart_for_each {A B} (body : A → M world B) (xs : list A) :
  (∀ a, apart (body a)) → apart (for_each body xs).
Proof.
  intros Hb. induction xs as [| a xs IH]; [done |].
  cbn [for_each]. apply apart_bind; [apply Hb |]. intros b.
  apply apart_bind; [apply IH | done].
Qed.

Lemma apart_getCacheM (key : string) : apart (getCacheM key).
Proof. intros w x. unfold getCacheM. cbn. by destruct (getCache key (now w) (cache w)). Qed.

Lemma apart_setCacheM (TTL : list (string * Z)) (key : string) (d : js) (type : string) :
  apart (setCacheM TTL key d type).
Proof. done. Qed.

Lemma apart_await {A} (c : call) (ask : Z → A * N) : apart (await c ask).
Proof. intros w x. unfold await. cbn. by destruct (ask (now w)). Qed.

Lemma apart_fetchWikipedia (net : network) (query : js) :
  apart (Aggregate.fetchWikipedia net query).
Proof.
  unfold Aggregate.fetchWikipedia. apply apart_bind; [apply apart_getCacheM |].
  intros cached. destruct (truthy cached); [done |].
  apply apart_bind; [apply apart_await |]. intros r.
  destruct (Aggregate.try_summary r); [| done].
  apply apart_bind; [apply apart_setCacheM | done].
Qed.

Lemma apart_fetchDuckDuckGo (net : network) (query : js) :
  apart (Aggregate.fetchDuckDuckGo net query).
Proof.
  unfold Aggregate.fetchDuckDuckGo. apply apart_bind; [apply apart_getCacheM |].
  intros cached. destruct (truthy cached); [done |].
  apply apart_bind; [apply apart_await |]. intros r.
  destruct (Aggregate.try_results r); [| done].
  apply apart_bind; [apply apart_setCacheM | done].
Qed.

Lemma apart_feed_step (net : network) (prompt : js) (feed : Aggregate.FeedSource) :
  apart (Aggregate.feed_step net prompt feed).
Proof.
  unfold Aggregate.feed_step. apply apart_bind.
  - unfold Aggregate.obtain. apply apart_bind; [apply apart_getCacheM |].
    intros cached. destruct (truthy cached); [done | apply apart_await].
  - intros [raw | err]; [| done].
    destruct (Aggregate.articles_of prompt raw); [| done].
    apply apart_bind; [apply apart_setCacheM | done].
Qed.

(** X12.  The two caches of a deployment are apart.  [/generate] gives the
    same answer and the same cache, clock and calls whatever the
    passthrough map holds, and leaves that map as it was;
    [/api/wikipedia] gives the same answer and the same passthrough map
    whatever the TTL cache holds, and leaves that cache as it was. *)
Theorem caches_apart (net : network) (feeds : list Aggregate.FeedSource)
    (body params : list (string * js)) (w : world) :
  (∀ x, Aggregate.generate net feeds body (with_passthrough x w)
        = (fst (Aggregate.generate net feeds body w),
           with_passthrough x (snd (Aggregate.generate net feeds body w))))
  ∧ (∀ c, api_wikipedia net params (with_cache c w)
          = (fst (api_wikipedia net params w),
             with_cache c (snd (api_wikipedia net params w)))).
Proof.
  split.
  - intros x. revert w x. change (apart (Aggregate.generate net feeds body)).
    unfold Aggregate.generate. destruct (negb _); [done |].
    destruct (ToString_throws _); [done |].
    apply apart_bind; [apply apart_fetchWikipedia |]. intros wikiText.
    apply apart_bind.
    { apply apart_for_each. intros feed. apply apart_feed_step. }
    intros rss. apply apart_bind; [apply apart_fetchDuckDuckGo | done].
  - intros c. unfold api_wikipedia. rewrite !run_bind. cbn [wikiNodeCache_get fst snd].
    cbn [wikiNodeCache with_cache].
    destruct (truthy _); [done |].
    rewrite !run_bind. unfold get_wikipedia, await. cbn [now with_cache].
    destruct (axios_wikipedia net (now w) params) as [[d | err] ms]; done.
Qed.

Lemma spends_ret {A} (a : A) : spends 0 (ret a).
Proof. intros w. exists []. cbn. split_and!; [done | lia | lia]. Qed.

Lemma spends_more {A} (n n' : nat) (m : M world A) :
  (n ≤ n')%nat → spends n m → spends n' m.
Proof.
  intros Hle Hm w. destruct (Hm w) as (new & Hc & Hl & Ht).
  exists new. split_and!; [done | lia | done].
Qed.

Lemma spends_bind {A B} (n1 n2 : nat) (m : M world A) (k : A → M world B) :
  spends n1 m → (∀ a, spends n2 (k a)) → spends (n1 + n2) (bind m k).
Proof.
  intros Hm Hk w. rewrite run_bind.
  destruct (Hm w) as (new1 & Hc1 & Hl1 & Ht1).
  destruct (Hk (fst (m w)) (snd (m w))) as (new2 & Hc2 & Hl2 & Ht2).
  exists (new2 ++ new1)%list. split_and!.
  - by rewrite Hc2, Hc1, app_assoc.
  - rewrite length_app. lia.
  - lia.
Qed.

Lemma spends_for_each {A B} (n : nat) (body : A → M world B) (xs : list A) :
  (∀ a, spends n (body a)) → spends (List.length xs * n) (for_each body xs).
Proof.
  intros Hb. induction xs as [| a xs IH]; [apply spends_ret |].
  cbn [for_each List.length Nat.mul]. apply spends_bind; [apply Hb |]. intros b.
  replace (List.length xs * n)%nat with (List.length xs * n + 0)%nat by lia.
  apply spends_bind; [apply IH | intros; apply spends_ret].
Qed.

Lemma spends_getCacheM (key : string) : spends 0 (getCacheM key).
Proof.
  intros w. exists []. unfold getCacheM. destruct (getCache key (now w) (cache w)). cbn.
  split_and!; [done | lia | lia].
Qed.

Lemma spends_setCacheM (TTL : list (string * Z)) (key : string) (d : js) (type : string) :
  spends 0 (setCacheM TTL key d type).
Proof. intros w. exists []. cbn. split_and!; [done | lia | lia]. Qed.

Lemma spends_await {A} (c : call) (ask : Z → A * N) : spends 1 (await c ask).
Proof.
  intros w. exists [c]. unfold await. destruct (ask (now w)). cbn.
  split_and!; [done | lia | lia].
Qed.

Lemma spends_fetchWikipedia (net : network) (query : js) :
  spends 1 (Aggregate.fetchWikipedia net query).
Proof.
  unfold Aggregate.fetchWikipedia. apply (spends_bind 0 1); [apply spends_getCacheM |].
  intros cached. destruct (truthy cached).
  { eapply spends_more; [| apply spends_ret]. lia. }
  apply (spends_bind 1 0); [apply spends_await |]. intros r.
  destruct (Aggregate.try_summary r); [| apply spends_ret].
  apply (spends_bind 0 0); [apply spends_setCacheM | intros; apply spends_ret].
Qed.

Lemma spends_fetchDuckDuckGo (net : network) (query : js) :
  spends 1 (Aggregate.fetchDuckDuckGo net query).
Proof.
  unfold Aggregate.fetchDuckDuckGo. apply (spends_bind 0 1); [apply spends_getCacheM |].
  intros cached. destruct (truthy cached).
  { eapply spends_more; [| apply spends_ret]. lia. }
  apply (spends_bind 1 0); [apply spends_await |]. intros r.
  destruct (Aggregate.try_results r); [| apply spends_ret].
  apply (spends_bind 0 0); [apply spends_setCacheM | intros; apply spends_ret].
Qed.

Lemma spends_feed_step (net : network) (prompt : js) (feed : Aggregate.FeedSource) :
  spends 1 (Aggregate.feed_step net prompt feed).
Proof.
  unfold Aggregate.feed_step. apply (spends_bind 1 0).
  - unfold Aggregate.obtain. apply (spends_bind 0 1); [apply spends_getCacheM |].
    intros cached. destruct (truthy cached).
    + eapply spends_more; [| apply spends_ret]. lia.
    + apply spends_await.
  - intros [raw | err]; [| apply spends_ret].
    destruct (Aggregate.articles_of prompt raw); [| apply spends_ret].
    apply (spends_bind 0 0); [apply spends_setCacheM | intros; apply spends_ret].
Qed.

(** X13.  One [/generate] request of the JSON deployment issues at most one
    upstream call per feed and two more (summary and search), keeps every
    call issued before it, and never turns the clock back. *)
Theorem generate_call_budget (net : network) (feeds : list Aggregate.FeedSource)
    (body : list (string * js)) (w : world) :
  ∃ new,
    calls (snd (Aggregate.generate net feeds body w)) = (new ++ calls w)%list
    ∧ (List.length new ≤ List.length feeds + 2)%nat
    ∧ now w ≤ now (snd (Aggregate.generate net feeds body w)).
Proof.
  revert w. change (spends (List.length feeds + 2) (Aggregate.generate net feeds body)).
  unfold Aggregate.generate. destruct (negb _).
  { eapply spends_more; [| apply spends_ret]. lia. }
  destruct (ToString_throws _).
  { eapply spends_more; [| apply spends_ret]. lia. }
  replace (List.length feeds + 2)%nat with (1 + (List.length feeds * 1 + (1 + 0)))%nat by lia.
  apply spends_bind; [apply spends_fetchWikipedia |]. intros wikiText.
  apply spends_bind.
  { apply spends_for_each. intros feed. apply spends_feed_step. }
  intros rss. apply spends_bind; [apply spends_fetchDuckDuckGo | intros; apply spends_ret].
Qed.

(** ** Failures of the passthrough *)

(** X14.  The passthrough over the [Map] does not remember a failure: when the
    lookup finds nothing usable and the upstream call is rejected, it
    answers 500 with the message of the error, leaves both caches as they
    were, and the same request made again at any time goes upstream
    again. *)
Theorem passthrough_error_not_cached (net : network) (params : list (string * js))
    (w : world) (err : error) :
  truthy (default JUndef (wikiNodeCache w !! stringify_object params)) = false →
  fst (axios_wikipedia net (now w) params) = Rejected err →
  let after := api_wikipedia net params w in
  fst after = Json 500 (JObj [("error", JStr (message err))])
  ∧ wikiNodeCache (snd after) = wikiNodeCache w
  ∧ cache (snd after) = cache w
  ∧ ∀ t, calls (snd (api_wikipedia net params (at_time t (snd after))))
         = GetWikipedia params :: calls (snd after).
Proof.
  intros Hmiss Hrej after. unfold after.
  rewrite (api_wikipedia_miss net params w Hmiss). cbn zeta. rewrite Hrej. cbn [fst snd].
  split_and!; [done | done | done |].
  intros t. rewrite api_wikipedia_miss; [| done]. cbn zeta. cbn [now calls at_time].
  by destruct (fst (axios_wikipedia net t params)).
Qed.

End properties.

Section examples.
#[local] Existing Instance Sample.runtime.

Lemma passthrough_error_not_cached_witness :
  calls (snd (api_wikipedia Sample.wiki_down [("titles", JStr "Cat")]
                (at_time 5000 (snd (api_wikipedia Sample.wiki_down [("titles", JStr "Cat")]
                                      Sample.start)))))
  = [GetWikipedia [("titles", JStr "Cat")]; GetWikipedia [("titles", JStr "Cat")]].
Proof.
  rewrite (proj2 (proj2 (proj2 (passthrough_error_not_cached Sample.wiki_down
                                  [("titles", JStr "Cat")] Sample.start Sample.not_found
                                  eq_refl eq_refl))) 5000).
  reflexivity.
Defined.

End examples.

Section properties.
Context {rt : Runtime}.

Lemma cache_get_effect (key : string) (s : NodeCacheProxy.state) :
  NodeCacheProxy.clock (snd (NodeCacheProxy.cache_get key s)) = NodeCacheProxy.clock s
  ∧ NodeCacheProxy.issued (snd (NodeCacheProxy.cache_get key s)) = NodeCacheProxy.issued s
  ∧ NodeCacheProxy.store (snd (NodeCacheProxy.cache_get key s)) ⊆ NodeCacheProxy.store s.
Proof.
  unfold NodeCacheProxy.cache_get.
  destruct (NodeCacheProxy.store s !! key); [| done].
  case_bool_decide; cbn; [| done]. split_and!; [done | done | apply delete_subseteq].
Qed.

Lemma cache_get_stays_missing (key : string) (s s' : NodeCacheProxy.state) :
  NodeCacheProxy.store s' = NodeCacheProxy.store (snd (NodeCacheProxy.cache_get key s)) →
  NodeCacheProxy.clock s ≤ NodeCacheProxy.clock s' →
  truthy (fst (NodeCacheProxy.cache_get key s)) = false →
  truthy (fst (NodeCacheProxy.cache_get key s')) = false.
Proof.
  intros Hstore Ht. unfold NodeCacheProxy.cache_get in *.
  destruct (NodeCacheProxy.store s !! key) as [e |] eqn:He.
  - case_bool_decide as Hexp; cbn in *.
    + intros _. by rewrite Hstore, lookup_delete_eq.
    + rewrite Hstore, He. intros Hf. by case_bool_decide.
  - cbn in *. by rewrite Hstore, He.
Qed.

(** X15.  The node-cache passthrough on a rejected upstream call, after a
    lookup that found nothing usable: a timeout is answered 504 with a
    fixed text, an error that is not from axios, or is without response
    and not a timeout, is answered 500 with its message; in every case
    nothing is stored, and the same request made again at any later time
    goes upstream again. *)
Theorem nodecache_timeout_504 (net : network) (params : list (string * js))
    (s : NodeCacheProxy.state) (err : error) :
  truthy (fst (NodeCacheProxy.cache_get (stringify_object params) s)) = false →
  fst (axios_wikipedia net (NodeCacheProxy.clock s) params) = Rejected err →
  let after := NodeCacheProxy.api_wikipedia net params s in
  (isAxiosError err = true → code err = "ECONNABORTED" →
   fst after = Json 504 (JObj [("error", JStr "Request to Wikipedia API timed out.")]))
  ∧ (isAxiosError err = false ∨ (code err ≠ "ECONNABORTED" ∧ response err = None) →
     fst after
     = Json 500 (JObj [("error", JStr ("An unexpected error occurred: " ++ message err))]))
  ∧ NodeCacheProxy.store (snd after) ⊆ NodeCacheProxy.store s
  ∧ ∀ t, NodeCacheProxy.clock (snd after) ≤ t →
         NodeCacheProxy.issued
           (snd (NodeCacheProxy.api_wikipedia net params (NodeCacheProxy.at_clock t (snd after))))
         = GetWikipedia params :: NodeCacheProxy.issued (snd after).
Proof.
  intros Hmiss Hrej after. unfold after.
  rewrite (nodecache_miss net params s Hmiss). cbn zeta.
  destruct (cache_get_effect (stringify_object params) s) as (Hclock & Hissued & Hstore).
  rewrite Hclock, Hissued, Hrej. cbn [fst snd].
  split_and!.
  - intros Hax Hcode. unfold NodeCacheProxy.on_error. rewrite Hax, Hcode. done.
  - intros [Hax | [Hcode Hresp]]; unfold NodeCacheProxy.on_error.
    + by rewrite Hax.
    + rewrite Hresp. destruct (isAxiosError err); [| done].
      by destruct (String.eqb_spec (code err) "ECONNABORTED").
  - done.
  - cbn [NodeCacheProxy.clock NodeCacheProxy.issued]. intros t Ht.
    set (s0 := snd (NodeCacheProxy.cache_get (stringify_object params) s)) in *.
    rewrite nodecache_miss.
    + cbn zeta.
      destruct (cache_get_effect (stringify_object params)
                  (NodeCacheProxy.at_clock t
                     (NodeCacheProxy.State (NodeCacheProxy.store s0)
                        (NodeCacheProxy.clock s
                         + Z.of_N (snd (axios_wikipedia net (NodeCacheProxy.clock s) params)))
                        (GetWikipedia params :: NodeCacheProxy.issued s))))
        as (Hc & Hi & _).
      rewrite Hc, Hi. cbn [NodeCacheProxy.at_clock NodeCacheProxy.issued NodeCacheProxy.clock].
      by destruct (fst (axios_wikipedia net t params)).
    + apply (cache_get_stays_missing (stringify_object params) s); [done | cbn; lia | done].
Qed.

End properties.

Section examples.
#[local] Existing Instance Sample.runtime.

Lemma nodecache_timeout_504_witness :
  fst (NodeCacheProxy.api_wikipedia More.wiki_timeout [("titles", JStr "Cat")]
         (NodeCacheProxy.State ∅ 0 []))
  = Json 504 (JObj [("error", JStr "Request to Wikipedia API timed out.")]).
Proof.
  exact (proj1 (nodecache_timeout_504 More.wiki_timeout [("titles", JStr "Cat")]
                  (NodeCacheProxy.State ∅ 0 []) Sample.timed_out eq_refl eq_refl)
               eq_refl eq_refl).
Defined.

End examples.

(** ** The fallback loops and the filter *)

Section properties.
Context {rt : Runtime}.

Lemma geminiKeys_at_most_two (key1 key2 : option string) :
  (List.length (Streaming.geminiKeys key1 key2) ≤ 2)%nat.
Proof.
  unfold Streaming.geminiKeys.
  destruct key1 as [k1 |], key2 as [k2 |]; cbn;
    repeat match goal with |- context [String.eqb ?x ""] => destruct (String.eqb x "") end;
    cbn; lia.
Qed.

Lemma combos_length (keys : list string) :
  List.length (Described.combos keys) = (2 * List.length keys)%nat.
Proof.
  induction keys as [| k keys IH]; [done |].
  unfold Described.combos in *. cbn [flat_map]. rewrite length_app, IH. cbn. lia.
Qed.

(** X16.  The two fallback loops of [/generate] post at most two requests per
    usable credential, so at most four; exactly two per credential when
    none succeeded; each one for a configured credential and one of the
    two models, with the same prompt text; and what had been written to
    the response before the loops is still its beginning after them. *)
Theorem fallback_request_budget (net : network) (text : string) (key1 key2 : option string)
    (written : list string) (w : world) :
  let keys := Streaming.geminiKeys key1 key2 in
  let r := Streaming.try_keys net text keys written w in
  ∃ new,
    calls (snd r) = (new ++ calls w)%list
    ∧ (List.length new ≤ 2 * List.length keys)%nat
    ∧ (List.length new ≤ 4)%nat
    ∧ (snd (fst r) = false → List.length new = (2 * List.length keys)%nat)
    ∧ Forall (λ c, ∃ model key, c = PostGemini model key text
                                ∧ key ∈ keys ∧ model ∈ Streaming.models) new
    ∧ written `prefix_of` fst (fst r).
Proof.
  intros keys r. unfold r.
  destruct (try_keys_run net text keys written w) as (Hout & Hcalls & _).
  cbn zeta in Hout, Hcalls. rewrite Hout.
  exists (Described.requests text (Described.combos keys)).
  assert (Hlen : List.length (Described.requests text (Described.combos keys))
                 = (2 * List.length keys)%nat).
  { unfold Described.requests. by rewrite length_rev, length_map, combos_length. }
  split_and!.
  - done.
  - lia.
  - pose proof (geminiKeys_at_most_two key1 key2) as H. fold keys in H. lia.
  - done.
  - unfold Described.requests. apply Forall_rev, Forall_map.
    apply Forall_forall. intros [key model] Hin. cbn.
    exists model, key. split; [done |].
    unfold Described.combos in Hin. apply list_elem_of_In in Hin.
    apply in_flat_map in Hin as (key' & Hkey & Hin).
    apply in_map_iff in Hin as (model' & [= <- <-] & Hmodel).
    split; by apply list_elem_of_In.
  - done.
Qed.

(** X17.  The feed filter does not see the letter case of the prompt: two
    prompts that are equal once lowered keep the same items of any feed,
    and so does a prompt and its lowered form. *)
Theorem filter_ignores_case (q q' : string) (xs : list js) :
  toLowerCase q = toLowerCase q' →
  Aggregate.filter_items (JStr q) xs = Aggregate.filter_items (JStr q') xs
  ∧ Aggregate.filter_items (JStr q) xs = Aggregate.filter_items (JStr (toLowerCase q)) xs.
Proof.
  assert (H : ∀ a b, toLowerCase a = toLowerCase b →
                     Aggregate.filter_items (JStr a) xs = Aggregate.filter_items (JStr b) xs).
  { intros a b Hab. induction xs as [| x xs IH]; [done |].
    cbn [Aggregate.filter_items]. rewrite IH.
    assert (Hm : Aggregate.item_matches (JStr a) x = Aggregate.item_matches (JStr b) x).
    { unfold Aggregate.item_matches, Aggregate.field_matches. cbn [Aggregate.lowered].
      by rewrite Hab. }
    by rewrite Hm. }
  intros Hq. split; [by apply H |]. apply H. by rewrite toLowerCase_twice.
Qed.

End properties.

Section examples.
#[local] Existing Instance Sample.runtime.

Lemma filter_ignores_case_witness :
  Aggregate.filter_items (JStr "CATS") (map js_of_item (items Sample.feed))
  = Aggregate.filter_items (JStr "cats") (map js_of_item (items Sample.feed)).
Proof. exact (proj1 (filter_ignores_case "CATS" "cats" _ eq_refl)). Defined.

End examples.

(** ** Cache keys of string parameters *)

Section properties.
Context {rt : Runtime}.

Lemma read_escape (c : ascii) (x : string) :
  read_string (escape c ++ x)
  = match read_string x with
    | Some (t, r) => Some (String c t, r)
    | None => None
    end.
Proof.
  destruct c as [[] [] [] [] [] [] [] []]; reflexivity.
Qed.

Lemma string_app_assoc (a b c : string) : (a ++ b) ++ c = a ++ (b ++ c).
Proof.
  induction a as [| x a IH]; [done |].
  change (String x ((a ++ b) ++ c) = String x (a ++ (b ++ c))). by rewrite IH.
Qed.

Lemma read_escaped (s r : string) :
  read_string (escape_all s ++ dquote ++ r) = Some (s, r).
Proof.
  induction s as [| c s IH]; [done |].
  change (escape_all (String c s)) with (escape c ++ escape_all s).
  rewrite string_app_assoc, read_escape, IH. done.
Qed.

(** A quoted string can be told from what follows it. *)
Lemma quote_cancel (s1 s2 r1 r2 : string) :
  quote s1 ++ r1 = quote s2 ++ r2 → s1 = s2 ∧ r1 = r2.
Proof.
  unfold quote. rewrite !string_app_assoc.
  change (dquote ++ ?x) with (String "034"%char x).
  intros [= H]. 
  assert (H' : read_string (escape_all s1 ++ dquote ++ r1)
               = read_string (escape_all s2 ++ dquote ++ r2)) by by rewrite H.
  rewrite !read_escaped in H'. by injection H' as -> ->.
Qed.

Lemma members_text (ps : list (string * string)) :
  ∀ p, join "," (map (λ p, quote (fst p) ++ ":" ++ quote (snd p)) (p :: ps)) ++ "}"
       = quote (fst p) ++ ":" ++ quote (snd p) ++ rest_text ps.
Proof.
  unfold join. induction ps as [| p' ps IH]; intros p.
  - cbn [map concat rest_text]. by rewrite !string_app_assoc.
  - change (concat "," (map (λ p, quote (fst p) ++ ":" ++ quote (snd p)) (p :: p' :: ps)))
      with ((quote (fst p) ++ ":" ++ quote (snd p)) ++ ","
            ++ concat "," (map (λ p, quote (fst p) ++ ":" ++ quote (snd p)) (p' :: ps))).
    rewrite !string_app_assoc. rewrite IH. done.
Qed.

Lemma stringify_string_params (ps : list (string * string)) :
  stringify_object (string_params ps)
  = match ps with
    | [] => "{}"
    | p :: ps' => "{" ++ quote (fst p) ++ ":" ++ quote (snd p) ++ rest_text ps'
    end.
Proof.
  unfold stringify_object.
  assert (Hm : omap (member JSON_stringify) (string_params ps)
               = map (λ p, quote (fst p) ++ ":" ++ quote (snd p)) ps).
  { induction ps as [| p ps IH]; [done |].
    change (omap (member JSON_stringify) (string_params (p :: ps)))
      with ((quote (fst p) ++ ":" ++ quote (snd p))
            :: omap (member JSON_stringify) (string_params ps)).
    by rewrite IH. }
  rewrite Hm. unfold braces. destruct ps as [| p ps]; [done |].
  by rewrite members_text.
Qed.

Lemma rest_text_inj (ps1 : list (string * string)) :
  ∀ ps2, rest_text ps1 = rest_text ps2 → ps1 = ps2.
Proof.
  induction ps1 as [| [k1 v1] ps1 IH]; intros [| [k2 v2] ps2]; cbn [rest_text fst snd].
  - done.
  - intros H. discriminate H.
  - intros H. discriminate H.
  - intros H. apply (inj (String.append ",")) in H.
    apply quote_cancel in H as [-> H]. apply (inj (String.append ":")) in H.
    apply quote_cancel in H as [-> H]. f_equal. by apply IH.
Qed.

Lemma api_wikipedia_other_key (net : network) (params : list (string * js)) (w : world)
    (k : string) :
  k ≠ stringify_object params →
  wikiNodeCache (snd (api_wikipedia net params w)) !! k = wikiNodeCache w !! k.
Proof.
  intros Hk. unfold api_wikipedia. rewrite run_bind. cbn [wikiNodeCache_get fst snd].
  destruct (truthy _); [done |].
  rewrite run_bind. unfold get_wikipedia, await.
  destruct (axios_wikipedia net (now w) params) as [[d | err] ms]; cbn; [| done].
  by rewrite lookup_insert_ne.
Qed.

(** X18.  Take two query objects whose values are strings and whose
    properties are enumerated in the order they were added (names
    distinct, none a canonical numeric string).  If they differ in any
    way, a name, a value, the number or the order of the properties, they
    derive different cache keys, and a request for the one leaves the
    entry under the key of the other as it was.  (Properties named by
    canonical numeric strings are enumerated in numeric order whatever
    the order in the request, and are outside this statement.) *)
Theorem distinct_params_distinct_keys (net : network) (ps1 ps2 : list (string * string))
    (w : world) :
  as_added ps1 →
  as_added ps2 →
  ps1 ≠ ps2 →
  stringify_object (string_params ps1) ≠ stringify_object (string_params ps2)
  ∧ wikiNodeCache (snd (api_wikipedia net (string_params ps1) w))
      !! stringify_object (string_params ps2)
    = wikiNodeCache w !! stringify_object (string_params ps2).
Proof.
  intros _ _ Hne.
  assert (Hkeys : stringify_object (string_params ps1) ≠ stringify_object (string_params ps2)).
  { intros Heq. apply Hne. rewrite !stringify_string_params in Heq.
    destruct ps1 as [| [k1 v1] ps1], ps2 as [| [k2 v2] ps2]; cbn [fst snd] in Heq.
    - done.
    - discriminate Heq.
    - discriminate Heq.
    - apply (inj (String.append "{")) in Heq.
      apply quote_cancel in Heq as [-> H]. apply (inj (String.append ":")) in H.
      apply quote_cancel in H as [-> H]. f_equal. by apply rest_text_inj. }
  split; [done |]. apply api_wikipedia_other_key. congruence.
Qed.

End properties.

Section examples.
#[local] Existing Instance Sample.runtime.

Lemma distinct_params_distinct_keys_witness :
  stringify_object (string_params [("titles", "Cat"); ("action", "query")])
  ≠ stringify_object (string_params [("action", "query"); ("titles", "Cat")]).
Proof.
  refine (proj1 (distinct_params_distinct_keys Sample.up
                   [("titles", "Cat"); ("action", "query")]
                   [("action", "query"); ("titles", "Cat")] Sample.start _ _ _)).
  - split; [| by repeat constructor].
    apply NoDup_cons. split; [| apply NoDup_singleton].
    intros H. apply list_elem_of_singleton in H. discriminate H.
  - split; [| by repeat constructor].
    apply NoDup_cons. split; [| apply NoDup_singleton].
    intros H. apply list_elem_of_singleton in H. discriminate H.
  - discriminate.
Defined.

End examples.

(** ** The preload and the requests after it *)

Section properties.
Context {rt : Runtime}.

Lemma wiki_key_not_rss (q u : string) : "rss:" ++ u ≠ "wiki:" ++ q.
Proof. intros H. discriminate H. Qed.

Lemma getCache_other {V} (key k : string) (t : Z) (c : gmap string (entry V)) :
  k ≠ key → snd (getCache key t c) !! k = c !! k.
Proof.
  intros Hk. destruct (getCache_cases key t c) as [-> | [-> _]]; [done |].
  by rewrite lookup_delete_ne.
Qed.

Lemma fetchWikipedia_effect (net : network) (query : js) (w : world) :
  let w' := snd (Aggregate.fetchWikipedia net query w) in
  (∀ k, k ≠ "wiki:" ++ ToString query → cache w' !! k = cache w !! k)
  ∧ (calls w' = calls w ∨ calls w' = GetWikipedia (Aggregate.summary_params query) :: calls w).
Proof.
  unfold Aggregate.fetchWikipedia. rewrite run_bind, getCacheM_run. cbn [fst snd].
  destruct (truthy _).
  - cbn. split; [| by left]. intros k Hk. by apply getCache_other.
  - rewrite run_bind. unfold get_wikipedia, await. cbn [now cache calls wikiNodeCache].
    destruct (axios_wikipedia net (now w) (Aggregate.summary_params query)) as [r ms].
    cbn [fst snd]. destruct (Aggregate.try_summary r); cbn.
    + split; [| by right]. intros k Hk. unfold setCache.
      rewrite lookup_insert_ne; [| done]. by apply getCache_other.
    + split; [| by right]. intros k Hk. by apply getCache_other.
Qed.

Lemma fetchDuckDuckGo_calls (net : network) (query : js) (w : world) :
  calls (snd (Aggregate.fetchDuckDuckGo net query w)) = calls w
  ∨ calls (snd (Aggregate.fetchDuckDuckGo net query w)) = GetSearch query :: calls w.
Proof.
  unfold Aggregate.fetchDuckDuckGo. rewrite run_bind, getCacheM_run. cbn [fst snd].
  destruct (truthy _); [by left |].
  rewrite run_bind. unfold Aggregate.get_search, await. cbn [now cache calls wikiNodeCache].
  destruct (axios_search net (now w) query) as [r ms].
  cbn [fst snd]. right. by destruct (Aggregate.try_results r).
Qed.

(** From a cache with no entry for any of the feeds, with feeds that all
    resolve, the preload fails for none. *)
Lemma preload_all_succeed (net : network) (q : string) (feeds : list Aggregate.FeedSource) :
  (∀ t u, ∃ f, fst (parser_parseURL net t u) = Resolved f) →
  NoDup (map Aggregate.url feeds) →
  ∀ w,
    (∀ feed, feed ∈ feeds → cache w !! ("rss:" ++ Aggregate.url feed) = None) →
    Forall (λ r, ∃ feed arts, r = Aggregate.formatted feed arts)
           (fst (Aggregate.fetchRSSFeeds net feeds (JStr q) w)).
Proof.
  intros Hup. unfold Aggregate.fetchRSSFeeds.
  induction feeds as [| f fs IH]; intros Hnd w Hnone; [constructor |].
  cbn [map] in Hnd. apply NoDup_cons in Hnd as [Hf Hnd].
  cbn [for_each]. rewrite run_bind, run_bind. cbn [fst snd ret].
  constructor.
  - rewrite feed_step_run, obtain_miss.
    + cbn zeta. cbn [fst snd]. destruct (Hup (now w) (Aggregate.url f)) as [f0 ->].
      rewrite articles_of_typed. by eexists _, _.
    + rewrite getCache_absent; [done |]. apply Hnone. apply elem_of_cons. by left.
  - apply IH; [done |]. intros g Hg. rewrite feed_step_cache_other.
    + apply Hnone. apply elem_of_cons. by right.
    + intros H. apply rss_key_inj in H. apply Hf. rewrite <- H.
      apply list_elem_of_In, in_map. by apply list_elem_of_In.
Qed.

(** X19.  The preload at start-up (lines 468-474) and [/generate] (lines
    477-495).  From an empty cache, with feeds of distinct addresses that
    all answer, a request whose feed lookups begin less than ten minutes
    after the preload began fetches no feed: the upstream calls it adds
    are at most one summary request and one search request. *)
Theorem preload_spares_requests (net : network) (feeds : list Aggregate.FeedSource)
    (body : list (string * js)) (w0 : world) (t : Z) :
  cache w0 = ∅ →
  NoDup (map Aggregate.url feeds) →
  (∀ t u, ∃ f, fst (parser_parseURL net t u) = Resolved f) →
  let w1 := snd (Aggregate.preloadFeeds net feeds w0) in
  let prompt := default JUndef (assoc "prompt" body) in
  now (snd (Aggregate.fetchWikipedia net prompt (at_time t w1))) < now w0 + 600000 →
  ∃ new,
    calls (snd (Aggregate.generate net feeds body (at_time t w1))) = (new ++ calls w1)%list
    ∧ Forall (λ c, ∀ u, c ≠ ParseURL u) new.
Proof.
  intros Hempty Hnd Hup w1 prompt Hsoon.
  assert (Hw1 : w1 = snd (Aggregate.fetchRSSFeeds net feeds (JStr "") w0)).
  { unfold w1, Aggregate.preloadFeeds. by rewrite run_bind. }
  assert (Hwarm : warm feeds (now w0 + 600000) (cache w1)).
  { rewrite Hw1. apply feeds_warm_after; [done |].
    apply preload_all_succeed; [done | done |]. intros feed _. by rewrite Hempty. }
  unfold Aggregate.generate. fold prompt. destruct (truthy prompt); cbn [negb].
  2: { exists []. split; [done | constructor]. }
  destruct (ToString_throws prompt).
  { exists []. split; [done | constructor]. }
  rewrite !run_bind. cbn [fst snd ret].
  set (wa := snd (Aggregate.fetchWikipedia net prompt (at_time t w1))) in *.
  destruct (fetchWikipedia_effect net prompt (at_time t w1)) as [Hkeep Hwiki].
  fold wa in Hkeep, Hwiki. cbn [cache calls at_time] in Hkeep, Hwiki.
  destruct (feeds_all_hit net prompt feeds wa) as [Hrss _].
  { intros feed Hin. destruct (Hwarm feed Hin) as (e & He & Hexp & Htrue).
    exists e. rewrite Hkeep; [| apply wiki_key_not_rss]. split; [done |]. split; [lia | done]. }
  set (wb := snd (Aggregate.fetchRSSFeeds net feeds prompt wa)) in *.
  destruct (fetchDuckDuckGo_calls net prompt wb) as [Hd | Hd]; rewrite Hd, Hrss;
    destruct Hwiki as [Hq | Hq]; rewrite Hq.
  - exists []. split; [done | constructor].
  - exists [GetWikipedia (Aggregate.summary_params prompt)]. split; [done |].
    by repeat constructor.
  - exists [GetSearch prompt]. split; [done |]. by repeat constructor.
  - exists [GetSearch prompt; GetWikipedia (Aggregate.summary_params prompt)].
    split; [done |]. by repeat constructor.
Qed.

End properties.

Section examples.
#[local] Existing Instance Sample.runtime.

Lemma preload_spares_requests_witness :
  ∃ new,
    calls (snd (Aggregate.generate Sample.up [Sample.source; More.other_source] Sample.ask
                  (at_time 500000
                     (snd (Aggregate.preloadFeeds Sample.up [Sample.source; More.other_source]
                             Sample.start)))))
    = (new ++ calls (snd (Aggregate.preloadFeeds Sample.up [Sample.source; More.other_source]
                            Sample.start)))%list
    ∧ Forall (λ c, ∀ u, c ≠ ParseURL u) new.
Proof.
  refine (preload_spares_requests Sample.up [Sample.source; More.other_source] Sample.ask
            Sample.start 500000 eq_refl _ _ _).
  - apply NoDup_cons. split; [| apply NoDup_singleton].
    intros H. apply list_elem_of_singleton in H. discriminate H.
  - intros t u. exists Sample.feed. reflexivity.
  - vm_compute. reflexivity.
Defined.

End examples.

(** ** The node-cache passthrough: relayed errors and the ten minutes *)

Section properties.
Context {rt : Runtime}.

(** X20.  The node-cache passthrough (lines 245-300) on an upstream
    answer that is not a success and not a timeout: the caller receives
    the upstream status, with the upstream status text in [error] and the
    upstream body under [details]; nothing is stored and one upstream call
    has been made. *)
Theorem nodecache_error_relayed (net : network) (params : list (string * js))
    (s : NodeCacheProxy.state) (err : error) (r : upstream_response) :
  truthy (fst (NodeCacheProxy.cache_get (stringify_object params) s)) = false →
  fst (axios_wikipedia net (NodeCacheProxy.clock s) params) = Rejected err →
  isAxiosError err = true →
  code err ≠ "ECONNABORTED" →
  response err = Some r →
  let after := NodeCacheProxy.api_wikipedia net params s in
  fst after
  = Json (r_status r)
         (JObj [("error", JStr ("Error fetching from Wikipedia API: " ++ r_statusText r));
                ("details", r_data r)])
  ∧ NodeCacheProxy.store (snd after) ⊆ NodeCacheProxy.store s
  ∧ NodeCacheProxy.issued (snd after) = GetWikipedia params :: NodeCacheProxy.issued s.
Proof.
  intros Hmiss Hrej Hax Hcode Hresp after. unfold after.
  rewrite (nodecache_miss net params s Hmiss). cbn zeta.
  destruct (cache_get_effect (stringify_object params) s) as (Hclock & Hissued & Hstore).
  rewrite Hclock, Hissued, Hrej. cbn [fst snd NodeCacheProxy.store NodeCacheProxy.issued].
  split_and!; [| done | done].
  unfold NodeCacheProxy.on_error. rewrite Hax, Hresp.
  by destruct (String.eqb_spec (code err) "ECONNABORTED").
Qed.

End properties.

Section examples.
#[local] Existing Instance Sample.runtime.

Lemma nodecache_error_relayed_witness :
  fst (NodeCacheProxy.api_wikipedia Sample.wiki_down [("titles", JStr "Cat")]
         (NodeCacheProxy.State ∅ 0 []))
  = Json 404 (JObj [("error", JStr "Error fetching from Wikipedia API: Not Found");
                    ("details", JObj [("error", JStr "no such page")])]).
Proof.
  refine (proj1 (nodecache_error_relayed Sample.wiki_down [("titles", JStr "Cat")]
                   (NodeCacheProxy.State ∅ 0 []) Sample.not_found
                   {| r_status := 404; r_statusText := "Not Found";
                      r_data := JObj [("error", JStr "no such page")] |}
                   eq_refl eq_refl eq_refl _ eq_refl)).
  discriminate.
Defined.

End examples.

Section properties.
Context {rt : Runtime}.

(** X21.  The node-cache passthrough (lines 245-300) on an upstream
    success found after a lookup with nothing usable: the body is relayed
    with status 200; a truthy body is then served from the store, without
    an upstream call, up to 600 seconds after it was stored; a falsy
    body, or a request later than that, goes upstream again. *)
Theorem nodecache_serves_ten_minutes (net : network) (params : list (string * js))
    (s : NodeCacheProxy.state) (d : js) :
  truthy (fst (NodeCacheProxy.cache_get (stringify_object params) s)) = false →
  fst (axios_wikipedia net (NodeCacheProxy.clock s) params) = Resolved d →
  let after := NodeCacheProxy.api_wikipedia net params s in
  let again t := NodeCacheProxy.api_wikipedia net params (NodeCacheProxy.at_clock t (snd after)) in
  fst after = Json 200 d
  ∧ NodeCacheProxy.issued (snd after) = GetWikipedia params :: NodeCacheProxy.issued s
  ∧ (∀ t, truthy d = true → t ≤ NodeCacheProxy.clock (snd after) + 600000 →
          again t = (Json 200 d, NodeCacheProxy.at_clock t (snd after)))
  ∧ (∀ t, truthy d = false ∨ NodeCacheProxy.clock (snd after) + 600000 < t →
          NodeCacheProxy.issued (snd (again t))
          = GetWikipedia params :: NodeCacheProxy.issued (snd after)).
Proof.
  intros Hmiss Hres after again. unfold again, after.
  rewrite (nodecache_miss net params s Hmiss). cbn zeta.
  destruct (cache_get_effect (stringify_object params) s) as (Hclock & Hissued & Hstore).
  rewrite Hclock, Hissued, Hres.
  cbn [fst snd NodeCacheProxy.store NodeCacheProxy.issued NodeCacheProxy.clock].
  split_and!; [done | done | |].
  - intros t Htrue Ht.
    refine (nodecache_hit net params _
              (Entry d (NodeCacheProxy.clock s
                        + Z.of_N (snd (axios_wikipedia net (NodeCacheProxy.clock s) params))
                        + 600 * 1000)) _ _ Htrue).
    + cbn. apply lookup_insert_eq.
    + cbn. lia.
  - intros t Hcase. rewrite nodecache_miss.
    + cbn zeta.
      match goal with
      | |- context [NodeCacheProxy.cache_get ?k ?x] =>
          destruct (cache_get_effect k x) as (Hc & Hi & _)
      end.
      rewrite Hc, Hi. cbn [NodeCacheProxy.at_clock NodeCacheProxy.issued NodeCacheProxy.clock].
      by destruct (fst (axios_wikipedia net t params)).
    + unfold NodeCacheProxy.cache_get, NodeCacheProxy.at_clock.
      cbn [NodeCacheProxy.store NodeCacheProxy.clock NodeCacheProxy.issued].
      rewrite lookup_insert_eq. cbn [expiry data].
      case_bool_decide as Hexp; [done |]. cbn [fst]. destruct Hcase as [Hd | Hlate]; [done | lia].
Qed.

End properties.

Section examples.
#[local] Existing Instance Sample.runtime.

Lemma nodecache_serves_ten_minutes_witness :
  NodeCacheProxy.api_wikipedia Sample.up [("titles", JStr "Cat")]
    (NodeCacheProxy.at_clock 600120
       (snd (NodeCacheProxy.api_wikipedia Sample.up [("titles", JStr "Cat")]
               (NodeCacheProxy.State ∅ 0 []))))
  = (Json 200 Sample.page,
     NodeCacheProxy.at_clock 600120
       (snd (NodeCacheProxy.api_wikipedia Sample.up [("titles", JStr "Cat")]
               (NodeCacheProxy.State ∅ 0 [])))).
Proof.
  refine (proj1 (proj2 (proj2 (nodecache_serves_ten_minutes Sample.up [("titles", JStr "Cat")]
                   (NodeCacheProxy.State ∅ 0 []) Sample.page eq_refl eq_refl))) 600120 eq_refl _).
  vm_compute. discriminate.
Defined.

End examples.

(** ** The aggregation endpoint when the summary fails *)

Section properties.
Context {rt : Runtime}.











End properties.

Section examples.
#[local] Existing Instance Sample.runtime.


End examples.

(** ** A prompt without text *)

Section properties.
Context {rt : Runtime}.

(** X22.  A prompt that is truthy and has no text (an object with an own
    [toString] property, or an array holding one) makes the key
    [`wiki:${query}`] throw: both [/generate] handlers answer status 500
    with the message of the [TypeError], and nothing has been looked up,
    fetched or stored. *)
Theorem prompt_without_text_rejected (net : network) (feeds : list Aggregate.FeedSource)
    (urls : list string) (key1 key2 : option string) (body : list (string * js))
    (prompt : js) (w : world) :
  assoc "prompt" body = Some prompt →
  ToString_throws prompt = true →
  Aggregate.generate net feeds body w
  = (Json 500 (JObj [("error", JStr "Cannot convert object to primitive value")]), w)
  ∧ Streaming.generate net urls key1 key2 body w
    = (Json 500 (JObj [("error", JStr "Cannot convert object to primitive value")]), w).
Proof.
  intros Hbody Hthrows.
  assert (Htrue : truthy prompt = true).
  { by destruct prompt. }
  unfold Aggregate.generate, Streaming.generate. rewrite Hbody.
  change (default JUndef (Some prompt)) with prompt.
  by rewrite Htrue, Hthrows.
Qed.

End properties.

Section examples.
#[local] Existing Instance Sample.runtime.

Lemma prompt_without_text_rejected_witness :
  Aggregate.generate Sample.up [Sample.source]
    [("prompt", JObj [("toString", JNum 1)])] Sample.start
  = (Json 500 (JObj [("error", JStr "Cannot convert object to primitive value")]),
     Sample.start).
Proof.
  exact (proj1 (prompt_without_text_rejected Sample.up [Sample.source] [] None None
                  [("prompt", JObj [("toString", JNum 1)])]
                  (JObj [("toString", JNum 1)]) Sample.start eq_refl eq_refl)).
Defined.

End examples.
